(** * consul-alerting: the alert handlers of [handler.go]

    A shallow embedding of the four [AlertHandler] implementations
    (console, e-mail, PagerDuty, Slack) and the properties their
    specification states about them.

    Go strings are byte strings ([string]), Go's [int] is a 64-bit
    two's-complement integer carried in [Z] with its wrap-around written
    out, and every interaction with the outside (logging, DNS, SMTP, the
    PagerDuty and Slack clients, the clock, [time.Sleep]) is recorded in a
    chronological trace.  The outside answers through a [World] of
    oracles. *)

From Stdlib Require Import ZArith List String Ascii Bool Arith Lia DecimalString.
Import ListNotations.

Local Open Scope string_scope.
Local Open Scope list_scope.

(** Go's [+] on strings; left associative like the source's. *)
Infix "+++" := String.append (at level 50, left associativity).

(* ================================================================= *)
(** ** Go's [int] *)

Module GoInt.

Definition bits : Z := 64.
Definition max_int : Z := 2 ^ (bits - 1) - 1.
Definition min_int : Z := - 2 ^ (bits - 1).

Definition in_range (z : Z) : Prop := (min_int <= z <= max_int)%Z.

(** Signed overflow wraps around. *)
Definition wrap (z : Z) : Z :=
  ((z - min_int) mod 2 ^ bits + min_int)%Z.

(** [tries++] *)
Definition incr (z : Z) : Z := wrap (z + 1).

End GoInt.

(* ================================================================= *)
(** ** The pieces of Go's standard library the handlers call *)

Definition newline : ascii := "010"%char.
Definition at_sign : ascii := "@"%char.

(** [strings.Split(s, sep)] for a one-byte separator, which is what both
    call sites pass (a newline and an at sign): the pieces between the
    occurrences of [sep], one more piece than there are occurrences. *)
Fixpoint Split (s : string) (sep : ascii) : list string :=
  match s with
  | EmptyString => [EmptyString]
  | String c s' =>
      if Ascii.eqb c sep then EmptyString :: Split s' sep
      else match Split s' sep with
           | piece :: pieces => String c piece :: pieces
           | [] => [String c EmptyString]
           end
  end.

(** Does the byte occur in the string? *)
Fixpoint contains_byte (s : string) (c : ascii) : bool :=
  match s with
  | EmptyString => false
  | String d s' => Ascii.eqb d c || contains_byte s' c
  end.

Definition is_upper (c : ascii) : bool :=
  (65 <=? nat_of_ascii c)%nat && (nat_of_ascii c <=? 90)%nat.

Definition lower_byte (c : ascii) : ascii :=
  if is_upper c then ascii_of_nat (nat_of_ascii c + 32) else c.

Fixpoint isASCII (s : string) : bool :=
  match s with
  | EmptyString => true
  | String c s' => (nat_of_ascii c <? 128)%nat && isASCII s'
  end.

Fixpoint map_bytes (f : ascii -> ascii) (s : string) : string :=
  match s with
  | EmptyString => EmptyString
  | String c s' => String (f c) (map_bytes f s')
  end.

(** [strconv.FormatInt(n, 10)] *)
Definition FormatInt10 (n : Z) : string :=
  NilZero.string_of_int (Z.to_int n).

Definition FormatNat (n : nat) : string :=
  NilZero.string_of_uint (Nat.to_uint n).

(** [time.Second], in nanoseconds. *)
Definition Second : Z := 1000000000.

(* ================================================================= *)
(** ** Data model *)

(** [api.HealthPassing] of the Consul client library. *)
Definition HealthPassing : string := "passing".

(** Modelled from the spec: the declaration of [AlertState] is not in
    [handler.go]; the handlers read the six fields below, all strings
    ([Status] is compared with the string constant [api.HealthPassing]). *)
Record AlertState := mkAlertState {
  Service : string;
  Tag : string;
  Node : string;
  Status : string;
  Message : string;
  Details : string
}.

(** A [*AlertState]; address [0] is never allocated and plays [nil]. *)
Definition ptr := nat.

(** [*log.Logger]: the logger a console handler holds, or logrus's
    package-level standard logger used by the other handlers. *)
Inductive Logger :=
| StdLogger
| HandlerLogger (id : nat).

Inductive Level :=
| PanicLevel | FatalLevel | ErrorLevel | WarnLevel | InfoLevel | DebugLevel.

(** [net.MX] *)
Record MX := mkMX { Host : string; Pref : Z }.

(** A [*gomail.Message]: its header fields and its body parts. *)
Inductive HeaderValue :=
| AddressHeader (address name : string)
| TextHeader (values : list string).

Record GoMessage := mkMessage {
  header : list (string * HeaderValue);
  parts : list (string * string)
}.

(** A [*gomail.Dialer] as [NewPlainDialer] fills it. *)
Record Dialer := mkDialer {
  dHost : string;
  dPort : Z;
  dUsername : string;
  dPassword : string
}.

(** A [*gopherduty.PagerDuty] client. *)
Record PDClient := mkPDClient {
  pdServiceKey : string;
  MaxRetry : Z
}.

(** [gopherduty.PagerDutyResponse], of which the handler reads [Errors];
    an [error] is carried as its message.  The client answers every call
    with a response, never with [nil]. *)
Record PagerDutyResponse := mkPDResponse { Errors : list string }.

(** [slack.Attachment], the fields the handler sets. *)
Record Attachment := mkAttachment {
  Color : string;
  Fallback : string;
  AuthorName : string;
  AuthorSubname : string;
  AuthorLink : string;
  AuthorIcon : string;
  Text : string;
  Footer : string;
  FooterIcon : string;
  Ts : string
}.

Record WebhookMessage := mkWebhookMessage { Attachments : list Attachment }.

(** What a handler does to the outside, in the order it does it.  [ELog]
    is a call of a logger's method of that level with that line; whether
    the logger's own threshold lets the entry through is the logger's
    business.  [ENow] is a reading of the clock. *)
Inductive Event :=
| ELog (lg : Logger) (lvl : Level) (line : string)
| EPrintln (line : string)
| ESleep (nanoseconds : Z)
| ENow
| ELookupMX (name : string)
| EDialAndSend (d : Dialer) (m : GoMessage)
| ETrigger (c : PDClient) (incidentKey description client clientUrl details : string)
| EResolve (c : PDClient) (incidentKey description details : string)
| EPostWebhook (url : string) (msg : WebhookMessage).

(** The answers of the outside.  The [n]-th call of an operation (counted
    from 0 over the whole trace) may answer differently from the others,
    and the answer may depend on the arguments.  A Go [error] is [None]
    for [nil] and [Some] of its message otherwise. *)
Record World := mkWorld {
  (** [unicode.ToLower] mapped over a string that is not pure ASCII *)
  unicode_ToLower : string -> string;
  (** [net.LookupMX]: the records and the error, both returned *)
  LookupMX : nat -> string -> list MX * option string;
  (** [DialAndSend] of a gomail dialer *)
  DialAndSend : nat -> Dialer -> GoMessage -> option string;
  (** [Trigger] and [Resolve] of a gopherduty client *)
  Trigger : nat -> PDClient -> string -> string -> string -> string -> string -> PagerDutyResponse;
  Resolve : nat -> PDClient -> string -> string -> string -> PagerDutyResponse;
  (** [slack.PostWebhook] *)
  PostWebhook : nat -> string -> WebhookMessage -> option string;
  (** [time.Now().Unix()] *)
  Now_Unix : nat -> Z
}.

(** [strings.ToLower]: bytes are lowered one by one when the string is
    pure ASCII, and runes through the Unicode tables otherwise. *)
Definition ToLower (W : World) (s : string) : string :=
  if isASCII s then map_bytes lower_byte s else unicode_ToLower W s.

(** The store the [*AlertState] points into, and the trace so far. *)
Record State := mkState {
  heap : ptr -> option AlertState;
  trace : list Event
}.

(* ================================================================= *)
(** ** Counting events *)

Definition is_lookup (e : Event) : bool :=
  match e with ELookupMX _ => true | _ => false end.
Definition is_send (e : Event) : bool :=
  match e with EDialAndSend _ _ => true | _ => false end.
Definition is_post (e : Event) : bool :=
  match e with EPostWebhook _ _ => true | _ => false end.
Definition is_now (e : Event) : bool :=
  match e with ENow => true | _ => false end.
Definition is_sleep (e : Event) : bool :=
  match e with ESleep _ => true | _ => false end.
Definition is_pd_call (e : Event) : bool :=
  match e with ETrigger _ _ _ _ _ _ | EResolve _ _ _ _ => true | _ => false end.

Definition count (f : Event -> bool) (tr : list Event) : nat :=
  List.length (filter f tr).

(* ================================================================= *)
(** ** The monad of handler code: state, panics, process exit, fuel *)

Inductive outcome (A : Type) :=
| Normal (a : A)         (* the call returned *)
| Panicked (v : string)  (* a Go panic unwinds to the caller *)
| Exited (code : Z)      (* os.Exit: the process is gone *)
| OutOfFuel.             (* a loop was cut by the model's fuel *)

Arguments Normal {A} a.
Arguments Panicked {A} v.
Arguments Exited {A} code.
Arguments OutOfFuel {A}.

Definition M (A : Type) : Type := State -> outcome A * State.

Definition ret {A} (a : A) : M A := fun st => (Normal a, st).

Definition bind {A B} (m : M A) (k : A -> M B) : M B :=
  fun st =>
    match m st with
    | (Normal a, st') => k a st'
    | (Panicked v, st') => (Panicked v, st')
    | (Exited c, st') => (Exited c, st')
    | (OutOfFuel, st') => (OutOfFuel, st')
    end.

Declare Scope go_scope.
Delimit Scope go_scope with go.
Notation "x <- m ;; k" := (bind m (fun x => k))
  (at level 100, m at next level, right associativity) : go_scope.
Notation "m ;; k" := (bind m (fun _ => k))
  (at level 100, right associativity) : go_scope.
Local Open Scope go_scope.

Definition panic {A} (v : string) : M A := fun st => (Panicked v, st).
Definition os_Exit {A} (code : Z) : M A := fun st => (Exited code, st).
Definition out_of_fuel {A} : M A := fun st => (OutOfFuel, st).

Definition emit (e : Event) : M unit :=
  fun st => (Normal tt, mkState (heap st) (trace st ++ [e])).

(** [*alert] *)
Definition deref (alert : ptr) : M AlertState :=
  fun st =>
    match heap st alert with
    | Some a => (Normal a, st)
    | None => (Panicked "runtime error: invalid memory address or nil pointer dereference", st)
    end.

(** [alert.Field] *)
Definition field {A} (f : AlertState -> A) (alert : ptr) : M A :=
  a <- deref alert ;; ret (f a).

(** [xs[i]], with Go's bounds check. *)
Definition index {A} (xs : list A) (i : nat) : M A :=
  match nth_error xs i with
  | Some x => ret x
  | None => panic ("runtime error: index out of range [" +++ FormatNat i +++ "] with length "
                   +++ FormatNat (List.length xs))
  end.

(** [for _, x := range xs { body }] *)
Fixpoint for_range {A} (xs : list A) (body : A -> M unit) : M unit :=
  match xs with
  | [] => ret tt
  | x :: xs' => body x ;; for_range xs' body
  end.

(** *** logrus *)

Definition Logger_Panic (lg : Logger) (line : string) : M unit :=
  emit (ELog lg PanicLevel line) ;; panic line.
Definition Logger_Fatal (lg : Logger) (line : string) : M unit :=
  emit (ELog lg FatalLevel line) ;; os_Exit 1%Z.
Definition Logger_Error (lg : Logger) (line : string) : M unit :=
  emit (ELog lg ErrorLevel line).
Definition Logger_Warn (lg : Logger) (line : string) : M unit :=
  emit (ELog lg WarnLevel line).
Definition Logger_Info (lg : Logger) (line : string) : M unit :=
  emit (ELog lg InfoLevel line).
Definition Logger_Debug (lg : Logger) (line : string) : M unit :=
  emit (ELog lg DebugLevel line).

(** [log.Error] and [log.Errorf] on the standard logger, given the
    formatted line. *)
Definition log_Error (line : string) : M unit := Logger_Error StdLogger line.

(** *** the other collaborators *)

Definition fmt_Println (line : string) : M unit := emit (EPrintln line).
Definition time_Sleep (d : Z) : M unit := emit (ESleep d).

Definition time_Now_Unix (W : World) : M Z :=
  fun st => (Normal (Now_Unix W (count is_now (trace st))),
             mkState (heap st) (trace st ++ [ENow])).

Definition net_LookupMX (W : World) (name : string) : M (list MX * option string) :=
  fun st => (Normal (LookupMX W (count is_lookup (trace st)) name),
             mkState (heap st) (trace st ++ [ELookupMX name])).

Definition Dialer_DialAndSend (W : World) (d : Dialer) (m : GoMessage) : M (option string) :=
  fun st => (Normal (DialAndSend W (count is_send (trace st)) d m),
             mkState (heap st) (trace st ++ [EDialAndSend d m])).

Definition PDClient_Trigger (W : World) (c : PDClient)
    (incidentKey description client clientUrl details : string) : M PagerDutyResponse :=
  fun st => (Normal (Trigger W (count is_pd_call (trace st)) c incidentKey description
                       client clientUrl details),
             mkState (heap st)
               (trace st ++ [ETrigger c incidentKey description client clientUrl details])).

Definition PDClient_Resolve (W : World) (c : PDClient)
    (incidentKey description details : string) : M PagerDutyResponse :=
  fun st => (Normal (Resolve W (count is_pd_call (trace st)) c incidentKey description details),
             mkState (heap st) (trace st ++ [EResolve c incidentKey description details])).

Definition slack_PostWebhook (W : World) (url : string) (msg : WebhookMessage) : M (option string) :=
  fun st => (Normal (PostWebhook W (count is_post (trace st)) url msg),
             mkState (heap st) (trace st ++ [EPostWebhook url msg])).

(** *** gomail *)

Definition NewMessage : GoMessage := mkMessage [] [].

Fixpoint set_field (field : string) (v : HeaderValue) (h : list (string * HeaderValue))
  : list (string * HeaderValue) :=
  match h with
  | [] => [(field, v)]
  | (f, w) :: h' => if String.eqb f field then (f, v) :: h' else (f, w) :: set_field field v h'
  end.

Fixpoint get_field (field : string) (h : list (string * HeaderValue)) : option HeaderValue :=
  match h with
  | [] => None
  | (f, w) :: h' => if String.eqb f field then Some w else get_field field h'
  end.

Definition SetAddressHeader (m : GoMessage) (field address name : string) : GoMessage :=
  mkMessage (set_field field (AddressHeader address name) (header m)) (parts m).

Definition SetHeader (m : GoMessage) (field value : string) : GoMessage :=
  mkMessage (set_field field (TextHeader [value]) (header m)) (parts m).

Definition SetBody (m : GoMessage) (contentType body : string) : GoMessage :=
  mkMessage (header m) [(contentType, body)].

Definition NewPlainDialer (host : string) (port : Z) (username password : string) : Dialer :=
  mkDialer host port username password.

Definition NewClient (serviceKey : string) : PDClient := mkPDClient serviceKey 0%Z.

(* ================================================================= *)
(** ** The handlers *)

(** [type AlertHandler interface { Alert(datacenter string, alert *AlertState) }].
    [fuel] bounds the iterations of each retry loop of the model; the
    source has no such bound. *)
Class AlertHandler (H : Type) := {
  Alert : nat -> World -> H -> string -> ptr -> M unit
}.

Module StdoutHandler.

Record t := mk {
  LogLevel : string;
  logger : Logger
}.

(** The [switch] of one iteration. *)
Definition emit_line (W : World) (handler : t) (line : string) : M unit :=
  let level := ToLower W (LogLevel handler) in
  if level =? "panic" then Logger_Panic (logger handler) line
  else if level =? "fatal" then Logger_Fatal (logger handler) line
  else if level =? "error" then Logger_Error (logger handler) line
  else if (level =? "warn") || (level =? "warning") then Logger_Warn (logger handler) line
  else if level =? "info" then Logger_Info (logger handler) line
  else if level =? "debug" then Logger_Debug (logger handler) line
  else ret tt.

Definition Alert (W : World) (handler : t) (datacenter : string) (alert : ptr) : M unit :=
  message <- field Message alert ;;
  let text := [message] in
  details <- field Details alert ;;
  let text := if negb (details =? "") then text ++ Split details newline else text in
  for_range text (emit_line W handler).

End StdoutHandler.

#[export] Instance StdoutHandler_AlertHandler : AlertHandler StdoutHandler.t :=
  {| Alert := fun _ => StdoutHandler.Alert |}.

Module EmailHandler.

Record t := mk {
  Recipients : list string;
  MaxRetries : Z
}.

(** [for tries <= handler.MaxRetries { ... }] *)
Fixpoint retry (fuel : nat) (W : World) (handler : t) (d : Dialer) (m : GoMessage)
    (tries : Z) : M unit :=
  match fuel with
  | O => out_of_fuel
  | S fuel' =>
      if (tries <=? MaxRetries handler)%Z then
        err <- Dialer_DialAndSend W d m ;;
        match err with
        | Some e =>
            log_Error ("Error sending alert email: " +++ e) ;;
            log_Error "Retrying email in 5s..." ;;
            time_Sleep (5 * Second) ;;
            retry fuel' W handler d m (GoInt.incr tries)
        | None => ret tt
        end
      else ret tt
  end.

(** One iteration of the loop over the recipients. *)
Definition body (fuel : nat) (W : World) (handler : t) (alert : ptr) (recipient : string)
  : M unit :=
  domain <- index (Split recipient at_sign) 1 ;;
  r <- net_LookupMX W domain ;;
  let (records, err) := r in
  match err with
  | Some e => log_Error ("Error looking up email server: " +++ e)
  | None =>
      let m := NewMessage in
      let m := SetAddressHeader m "From" "consul-alerting@noreply.com" "Consul Alerting" in
      let m := SetAddressHeader m "To" recipient "" in
      subject <- field Message alert ;;
      let m := SetHeader m "Subject" subject in
      text <- field Details alert ;;
      let m := SetBody m "text/plain" text in
      mx <- index records 0 ;;
      let d := NewPlainDialer (Host mx) 25 "" "" in
      retry fuel W handler d m 0
  end.

Definition Alert (fuel : nat) (W : World) (handler : t) (datacenter : string) (alert : ptr)
  : M unit :=
  for_range (Recipients handler) (body fuel W handler alert).

End EmailHandler.

#[export] Instance EmailHandler_AlertHandler : AlertHandler EmailHandler.t :=
  {| Alert := EmailHandler.Alert |}.

Module PagerdutyHandler.

Record t := mk {
  ServiceKey : string;
  MaxRetries : Z
}.

Definition error_line (err details message : string) : string :=
  "Error sending alert to PagerDuty: " +++ err +++ " (details: " +++ details
    +++ ", message: " +++ message +++ ")".

Definition Alert (W : World) (handler : t) (datacenter : string) (alert : ptr) : M unit :=
  let client := NewClient (ServiceKey handler) in
  let client := mkPDClient (pdServiceKey client) (MaxRetries handler) in
  service <- field Service alert ;;
  tag <- field Tag alert ;;
  node <- field Node alert ;;
  let incidentKey := datacenter +++ "-" +++ service +++ "-" +++ tag +++ "-" +++ node in
  status <- field Status alert ;;
  resp <- (if negb (status =? HealthPassing) then
             message <- field Message alert ;;
             details <- field Details alert ;;
             PDClient_Trigger W client incidentKey message "" "" details
           else
             message <- field Message alert ;;
             details <- field Details alert ;;
             PDClient_Resolve W client incidentKey message details) ;;
  for_range (Errors resp) (fun err =>
    details <- field Details alert ;;
    message <- field Message alert ;;
    log_Error (error_line err details message)).

End PagerdutyHandler.

#[export] Instance PagerdutyHandler_AlertHandler : AlertHandler PagerdutyHandler.t :=
  {| Alert := fun _ => PagerdutyHandler.Alert |}.

Module SlackHandler.

Record t := mk {
  Token : string;
  ChannelName : string;
  MaxRetries : Z
}.

Definition nl : string := String newline EmptyString.

(** [fmt.Sprintf(slackMessageFormat, a, b)]: the raw literal opens with a
    line break, then the first verb between asterisks, a line break, the
    second verb and a last line break. *)
Definition slackMessageFormat (a b : string) : string :=
  nl +++ "*" +++ a +++ "*" +++ nl +++ b +++ nl.

Definition attachment (message : string) (now : Z) : Attachment :=
  {| Color := "good";
     Fallback := "";
     AuthorName := "https://github.com/kyhavlov/consul-alerting";
     AuthorSubname := "github.com";
     AuthorLink := "https://github.com/kyhavlov";
     AuthorIcon := "https://avatars2.githubusercontent.com/u/4177697?s=400&v=4";
     Text := message;
     Footer := "consul-alerting";
     FooterIcon := "https://platform.slack-edge.com/img/default_application_icon.png";
     Ts := FormatInt10 now |}.

Definition error_line (channel err : string) : string :=
  "Error sending alert to Slack (channel: " +++ channel +++ "): " +++ err.

(** [for tries <= handler.MaxRetries { ... }] *)
Fixpoint retry (fuel : nat) (W : World) (handler : t) (message : string) (tries : Z)
  : M unit :=
  match fuel with
  | O => out_of_fuel
  | S fuel' =>
      if (tries <=? MaxRetries handler)%Z then
        now <- time_Now_Unix W ;;
        let msg := mkWebhookMessage [attachment message now] in
        err <- slack_PostWebhook W (Token handler) msg ;;
        (match err with
         | Some e => fmt_Println e
         | None => ret tt
         end) ;;
        match err with
        | Some e =>
            log_Error (error_line (ChannelName handler) e) ;;
            log_Error "Retrying alert to slack in 5s..." ;;
            time_Sleep (5 * Second) ;;
            retry fuel' W handler message (GoInt.incr tries)
        | None => ret tt
        end
      else ret tt
  end.

Definition Alert (fuel : nat) (W : World) (handler : t) (datacenter : string) (alert : ptr)
  : M unit :=
  a <- field Message alert ;;
  b <- field Details alert ;;
  let message := slackMessageFormat a b in
  retry fuel W handler message 0.

End SlackHandler.

#[export] Instance SlackHandler_AlertHandler : AlertHandler SlackHandler.t :=
  {| Alert := SlackHandler.Alert |}.

(** The four implementations of the interface, as one type. *)
Inductive Handler :=
| Console (h : StdoutHandler.t)
| Email (h : EmailHandler.t)
| IncidentManagement (h : PagerdutyHandler.t)
| ChatWebhook (h : SlackHandler.t).

Definition Handler_Alert (fuel : nat) (W : World) (h : Handler) : string -> ptr -> M unit :=
  match h with
  | Console h => Alert fuel W h
  | Email h => Alert fuel W h
  | IncidentManagement h => Alert fuel W h
  | ChatWebhook h => Alert fuel W h
  end.

#[export] Instance Handler_AlertHandler : AlertHandler Handler :=
  {| Alert := Handler_Alert |}.

(* ================================================================= *)
(** ** A sample world and store, to run the handlers *)

Module Sample.

Definition web : AlertState :=
  {| Service := "web"; Tag := "v2"; Node := "node-1"; Status := "critical";
     Message := "web unhealthy"; Details := "line1" +++ SlackHandler.nl +++ "line2" |}.

Definition web_ok : AlertState :=
  {| Service := "web"; Tag := "v2"; Node := "node-1"; Status := "passing";
     Message := "web healthy"; Details := "" |}.

(** [web] at address 1, [web_ok] at address 2, nothing logged yet. *)
Definition st0 : State :=
  {| heap := fun p => match p with 1 => Some web | 2 => Some web_ok | _ => None end;
     trace := [] |}.

(** Every call succeeds; the mail exchanger of any domain is [mx.] the
    domain. *)
Definition calm : World :=
  {| unicode_ToLower := fun s => s;
     LookupMX := fun _ name => ([mkMX ("mx." +++ name) 10], None);
     DialAndSend := fun _ _ _ => None;
     Trigger := fun _ _ _ _ _ _ _ => mkPDResponse [];
     Resolve := fun _ _ _ _ _ => mkPDResponse [];
     PostWebhook := fun _ _ _ => None;
     Now_Unix := fun n => (1700000000 + Z.of_nat n)%Z |}.

(** Every network call fails, for ever. *)
Definition down : World :=
  {| unicode_ToLower := fun s => s;
     LookupMX := fun _ name => ([], Some "no such host");
     DialAndSend := fun _ _ _ => Some "connection refused";
     Trigger := fun _ _ _ _ _ _ _ => mkPDResponse ["timeout"; "bad gateway"];
     Resolve := fun _ _ _ _ _ => mkPDResponse ["timeout"];
     PostWebhook := fun _ _ _ => Some "connection refused";
     Now_Unix := fun n => (1700000000 + Z.of_nat n)%Z |}.

(** DNS answers, the mail server refuses every message. *)
Definition refusing : World :=
  {| unicode_ToLower := fun s => s;
     LookupMX := fun _ name => ([mkMX ("mx." +++ name) 10], None);
     DialAndSend := fun _ _ _ => Some "connection refused";
     Trigger := fun _ _ _ _ _ _ _ => mkPDResponse [];
     Resolve := fun _ _ _ _ _ => mkPDResponse [];
     PostWebhook := fun _ _ _ => Some "connection refused";
     Now_Unix := fun n => (1700000000 + Z.of_nat n)%Z |}.

End Sample.

(* ================================================================= *)
(** ** The handlers in memory *)

(** Above, a handler gets its configuration as a value.  In Go the
    receiver of [Alert] is a copy of the handler value the caller holds,
    [Recipients] is a slice that shares its backing array with the
    caller's, and an assignment through a pointer or to an element of a
    slice writes memory the caller sees.  Here the caller's handler
    values and the backing arrays stand in memory beside the alerts, the
    language has its writes, and the same handlers run from there. *)

(** A [[]string]: where its backing array is, and how many elements. *)
Record Slice := mkSlice { array : ptr; len : nat }.

(** A handler value as memory holds it: the struct of [handler.go], with
    the slice of the e-mail handler as a slice. *)
Inductive Receiver :=
| OfStdout (h : StdoutHandler.t)
| OfEmail (Recipients : Slice) (MaxRetries : Z)
| OfPagerduty (h : PagerdutyHandler.t)
| OfSlack (h : SlackHandler.t).

Record Memory := mkMemory {
  state : State;                         (* the alerts and the trace *)
  arrays : ptr -> option (list string);  (* the backing arrays of slices *)
  handlers : ptr -> option Receiver      (* the handler values the caller holds *)
}.

Definition MM (A : Type) : Type := Memory -> outcome A * Memory.

Definition mret {A} (a : A) : MM A := fun mem => (Normal a, mem).

Definition mbind {A B} (m : MM A) (k : A -> MM B) : MM B :=
  fun mem =>
    match m mem with
    | (Normal a, mem') => k a mem'
    | (Panicked v, mem') => (Panicked v, mem')
    | (Exited c, mem') => (Exited c, mem')
    | (OutOfFuel, mem') => (OutOfFuel, mem')
    end.

Declare Scope mem_scope.
Delimit Scope mem_scope with mem.
Notation "x <- m ;; k" := (mbind m (fun x => k))
  (at level 100, m at next level, right associativity) : mem_scope.
Notation "m ;; k" := (mbind m (fun _ => k))
  (at level 100, right associativity) : mem_scope.

(** Code that touches only the alerts and the outside. *)
Definition lift {A} (m : M A) : MM A :=
  fun mem =>
    let (r, st') := m (state mem) in (r, mkMemory st' (arrays mem) (handlers mem)).

(** [*alert = a] *)
Definition assign_alert (alert : ptr) (a : AlertState) : M unit :=
  fun st =>
    match heap st alert with
    | Some _ =>
        (Normal tt, mkState (fun q => if Nat.eqb q alert then Some a else heap st q) (trace st))
    | None => (Panicked "runtime error: invalid memory address or nil pointer dereference", st)
    end.

(** The copy of the handler value at [self] that a call passes as the
    receiver. *)
Definition load_handler (self : ptr) : MM Receiver :=
  fun mem =>
    match handlers mem self with
    | Some r => (Normal r, mem)
    | None => (Panicked "runtime error: invalid memory address or nil pointer dereference", mem)
    end.

(** [*self = r] *)
Definition store_handler (self : ptr) (r : Receiver) : MM unit :=
  fun mem =>
    match handlers mem self with
    | Some _ =>
        (Normal tt,
         mkMemory (state mem) (arrays mem)
           (fun q => if Nat.eqb q self then Some r else handlers mem q))
    | None => (Panicked "runtime error: invalid memory address or nil pointer dereference", mem)
    end.

(** [s[i]], read. *)
Definition load_element (s : Slice) (i : nat) : MM string :=
  fun mem =>
    match (if (i <? len s)%nat
           then match arrays mem (array s) with
                | Some xs => nth_error xs i
                | None => None
                end
           else None) with
    | Some x => (Normal x, mem)
    | None => (Panicked ("runtime error: index out of range [" +++ FormatNat i
                         +++ "] with length " +++ FormatNat (len s)), mem)
    end.

(** [s[i] = v] *)
Definition store_element (s : Slice) (i : nat) (v : string) : MM unit :=
  fun mem =>
    match (if (i <? len s)%nat
           then match arrays mem (array s) with
                | Some xs => if (i <? List.length xs)%nat then Some xs else None
                | None => None
                end
           else None) with
    | Some xs =>
        (Normal tt,
         mkMemory (state mem)
           (fun q => if Nat.eqb q (array s)
                     then Some (firstn i xs ++ v :: skipn (S i) xs)
                     else arrays mem q)
           (handlers mem))
    | None => (Panicked ("runtime error: index out of range [" +++ FormatNat i
                         +++ "] with length " +++ FormatNat (len s)), mem)
    end.

(** [for _, x := range s { body }], from element [i] on, [n] elements:
    each element is read when its turn comes. *)
Fixpoint range_from (s : Slice) (i n : nat) (body : string -> MM unit) : MM unit :=
  match n with
  | O => mret tt
  | S n' => (x <- load_element s i ;; body x ;; range_from s (S i) n' body)%mem
  end.

Definition range_slice (s : Slice) (body : string -> MM unit) : MM unit :=
  range_from s 0 (len s) body.

(** The four [Alert] methods on a receiver.  Three of them hold no
    reference but the logger and are the handlers above; the e-mail
    handler ranges over its slice and runs the loop body above, which
    reads nothing of its handler but [MaxRetries]. *)
Definition Receiver_Alert (fuel : nat) (W : World) (handler : Receiver)
    (datacenter : string) (alert : ptr) : MM unit :=
  match handler with
  | OfStdout h => lift (StdoutHandler.Alert W h datacenter alert)
  | OfEmail recipients maxRetries =>
      range_slice recipients (fun recipient =>
        lift (EmailHandler.body fuel W (EmailHandler.mk [] maxRetries) alert recipient))
  | OfPagerduty h => lift (PagerdutyHandler.Alert W h datacenter alert)
  | OfSlack h => lift (SlackHandler.Alert fuel W h datacenter alert)
  end.

(** [handler.Alert(datacenter, alert)] for the handler value the caller
    holds at [self]: the receiver is a copy of it. *)
Definition call_Alert (fuel : nat) (W : World) (self : ptr) (datacenter : string)
    (alert : ptr) : MM unit :=
  (handler <- load_handler self ;; Receiver_Alert fuel W handler datacenter alert)%mem.

(** The handler of the value-level model that a receiver stands for,
    [xs] being the backing array of its slice. *)
Definition handler_of (r : Receiver) (xs : list string) : Handler :=
  match r with
  | OfStdout h => Console h
  | OfEmail recipients maxRetries =>
      Email (EmailHandler.mk (firstn (len recipients) xs) maxRetries)
  | OfPagerduty h => IncidentManagement h
  | OfSlack h => ChatWebhook h
  end.

(** The backing array a receiver refers to, if it refers to one. *)
Definition array_of (r : Receiver) : option ptr :=
  match r with
  | OfEmail recipients _ => Some (array recipients)
  | _ => None
  end.

(** A memory in which a web alert stands at address 1, an e-mail handler
    at address 7 and the array of its two recipients at address 9. *)
Definition sample_memory : Memory :=
  {| state := Sample.st0;
     arrays := fun q => match q with
                        | 9 => Some ["a@example.com"; "b@example.org"]
                        | _ => None
                        end;
     handlers := fun q => match q with
                          | 7 => Some (OfEmail (mkSlice 9 2) 1)
                          | _ => None
                          end |}.

(* ================================================================= *)
(** ** Vocabulary of the properties *)

(** The state after the events [evs] have happened: the store is the one
    before, the trace is longer. *)
Definition ext (st : State) (evs : list Event) : State :=
  mkState (heap st) (trace st ++ evs).

(** What the run of [m] from [st] adds to the trace. *)
Definition issued {A} (m : M A) (st : State) : list Event :=
  skipn (List.length (trace st)) (trace (snd (m st))).

(** A call raises when it panics or ends the process. *)
Definition raises {A} (r : outcome A) : bool :=
  match r with
  | Panicked _ | Exited _ => true
  | Normal _ | OutOfFuel => false
  end.

(** A computation that only appends to the trace and leaves the store as
    it found it, however it ends. *)
Definition frame {A} (m : M A) : Prop :=
  forall st, exists evs, snd (m st) = ext st evs.

(** Attempt [k] (counted from 0) is the first one that succeeds, so
    [k + 1] attempts are needed until the first success. *)
Definition first_success (o : nat -> option string) (k : nat) : Prop :=
  o k = None /\ forall j, (j < k)%nat -> o j <> None.

(** The first [n] attempts all fail. *)
Definition all_fail (o : nat -> option string) (n : nat) : Prop :=
  forall j, (j < n)%nat -> o j <> None.

(** [errs] are the errors of the attempts [0], [1], ... in this order. *)
Definition errors_of (o : nat -> option string) (errs : list string) : Prop :=
  forall j e, nth_error errs j = Some e -> o j = Some e.

(** The number of attempts a loop allows: [MaxRetries + 1], none when
    that is not positive. *)
Definition allowed (maxRetries : Z) : nat := Z.to_nat (maxRetries + 1).

(** *** PagerDuty *)

(** The incident keys of the PagerDuty calls of a trace. *)
Fixpoint incident_keys (tr : list Event) : list string :=
  match tr with
  | [] => []
  | ETrigger _ k _ _ _ _ :: tr' => k :: incident_keys tr'
  | EResolve _ k _ _ :: tr' => k :: incident_keys tr'
  | _ :: tr' => incident_keys tr'
  end.

Definition pd_client (handler : PagerdutyHandler.t) : PDClient :=
  mkPDClient (PagerdutyHandler.ServiceKey handler) (PagerdutyHandler.MaxRetries handler).

Definition pd_key (datacenter : string) (a : AlertState) : string :=
  datacenter +++ "-" +++ Service a +++ "-" +++ Tag a +++ "-" +++ Node a.

(** The call the specification expects for an alert: a trigger unless the status
    is passing, a resolve when it is. *)
Definition pd_call (handler : PagerdutyHandler.t) (datacenter : string) (a : AlertState)
  : Event :=
  if Status a =? "passing"
  then EResolve (pd_client handler) (pd_key datacenter a) (Message a) (Details a)
  else ETrigger (pd_client handler) (pd_key datacenter a) (Message a) "" "" (Details a).

(** The answer to that call when [n] calls were made before. *)
Definition pd_answer (W : World) (handler : PagerdutyHandler.t) (datacenter : string)
    (a : AlertState) (n : nat) : PagerDutyResponse :=
  if Status a =? "passing"
  then Resolve W n (pd_client handler) (pd_key datacenter a) (Message a) (Details a)
  else Trigger W n (pd_client handler) (pd_key datacenter a) (Message a) "" "" (Details a).

Definition pd_error_log (a : AlertState) (err : string) : Event :=
  ELog StdLogger ErrorLevel (PagerdutyHandler.error_line err (Details a) (Message a)).

(** *** Console *)

(** The severity a lower-cased level name selects, if any. *)
Definition configured_level (name : string) : option Level :=
  if name =? "panic" then Some PanicLevel
  else if name =? "fatal" then Some FatalLevel
  else if name =? "error" then Some ErrorLevel
  else if name =? "warn" then Some WarnLevel
  else if name =? "warning" then Some WarnLevel
  else if name =? "info" then Some InfoLevel
  else if name =? "debug" then Some DebugLevel
  else None.

(** The lines of [Details]: none when it is empty. *)
Definition detail_lines (a : AlertState) : list string :=
  if Details a =? "" then [] else Split (Details a) newline.

(** *** E-mail *)

(** What one failed delivery leaves in the trace. *)
Definition email_failure (d : Dialer) (m : GoMessage) (e : string) : list Event :=
  [EDialAndSend d m;
   ELog StdLogger ErrorLevel ("Error sending alert email: " +++ e);
   ELog StdLogger ErrorLevel "Retrying email in 5s...";
   ESleep (5 * Second)].

(** What the retry loop leaves in the trace when its first attempts
    failed with [errs] and, if [delivered], one more succeeded. *)
Definition email_attempts (d : Dialer) (m : GoMessage) (errs : list string) (delivered : bool)
  : list Event :=
  flat_map (email_failure d m) errs ++ (if delivered then [EDialAndSend d m] else []).

(** The message and the dialer the loop body builds for a recipient. *)
Definition alert_mail (recipient : string) (a : AlertState) : GoMessage :=
  SetBody
    (SetHeader
       (SetAddressHeader
          (SetAddressHeader NewMessage "From" "consul-alerting@noreply.com" "Consul Alerting")
          "To" recipient "")
       "Subject" (Message a))
    "text/plain" (Details a).

Definition mail_dialer (mx : MX) : Dialer := NewPlainDialer (Host mx) 25 "" "".

(** The deliveries of a trace: through which dialer, and what. *)
Fixpoint sends (tr : list Event) : list (Dialer * GoMessage) :=
  match tr with
  | [] => []
  | EDialAndSend d m :: tr' => (d, m) :: sends tr'
  | _ :: tr' => sends tr'
  end.

(** A successful MX lookup of this world never comes with no record. *)
Definition mx_never_empty (W : World) : Prop :=
  forall n name records, LookupMX W n name = (records, None) -> records <> [].

(** *** Slack *)

Definition slack_text (a : AlertState) : string :=
  SlackHandler.slackMessageFormat (Message a) (Details a).

Definition slack_payload (text : string) (now : Z) : WebhookMessage :=
  mkWebhookMessage [SlackHandler.attachment text now].

(** What one failed round leaves in the trace. *)
Definition slack_failure (handler : SlackHandler.t) (text : string) (now : Z) (e : string)
  : list Event :=
  [ENow;
   EPostWebhook (SlackHandler.Token handler) (slack_payload text now);
   EPrintln e;
   ELog StdLogger ErrorLevel (SlackHandler.error_line (SlackHandler.ChannelName handler) e);
   ELog StdLogger ErrorLevel "Retrying alert to slack in 5s...";
   ESleep (5 * Second)].

(** The failed rounds with errors [errs], the clock having been read [c]
    times before the first of them. *)
Fixpoint slack_failures (W : World) (handler : SlackHandler.t) (text : string) (c : nat)
    (errs : list string) : list Event :=
  match errs with
  | [] => []
  | e :: errs' =>
      slack_failure handler text (Now_Unix W c) e ++ slack_failures W handler text (S c) errs'
  end.

(** What the retry loop leaves in the trace when its first rounds failed
    with [errs] and, if [delivered], one more succeeded. *)
Definition slack_attempts (W : World) (handler : SlackHandler.t) (text : string) (c : nat)
    (errs : list string) (delivered : bool) : list Event :=
  slack_failures W handler text c errs
  ++ (if delivered
      then [ENow; EPostWebhook (SlackHandler.Token handler)
                    (slack_payload text (Now_Unix W (c + List.length errs)))]
      else []).

(** The answer to the post of a round that starts in [st]. *)
Definition slack_answer (W : World) (handler : SlackHandler.t) (text : string) (st : State)
  : option string :=
  PostWebhook W (count is_post (trace st)) (SlackHandler.Token handler)
    (slack_payload text (Now_Unix W (count is_now (trace st)))).

(** The webhook posts of a trace: where to, and what. *)
Fixpoint posts (tr : list Event) : list (string * WebhookMessage) :=
  match tr with
  | [] => []
  | EPostWebhook url msg :: tr' => (url, msg) :: posts tr'
  | _ :: tr' => posts tr'
  end.



(** *** All handlers *)

(** Is the console handler's level one of the two that end the call by a
    panic or by leaving the process? *)
Definition escalates (W : World) (handler : StdoutHandler.t) : bool :=
  let level := ToLower W (StdoutHandler.LogLevel handler) in
  (level =? "panic") || (level =? "fatal").

(** The configurations under which no handler raises: the console level
    is not one of the two that end the process, every e-mail recipient
    has an at sign and DNS never answers a lookup with success and no
    record. *)
Definition well_configured (W : World) (h : Handler) : Prop :=
  match h with
  | Console h => escalates W h = false
  | Email h =>
      Forall (fun r => contains_byte r at_sign = true) (EmailHandler.Recipients h)
      /\ mx_never_empty W
  | IncidentManagement _ => True
  | ChatWebhook _ => True
  end.

(** The retry budget of a handler, [-1] for those without a retry loop
    of their own. *)
Definition retry_budget (h : Handler) : Z :=
  match h with
  | Console _ => (-1)%Z
  | Email h => EmailHandler.MaxRetries h
  | IncidentManagement _ => (-1)%Z
  | ChatWebhook h => SlackHandler.MaxRetries h
  end.

(** A computation in memory that only appends to the trace: the alerts,
    the arrays and the handler values are after it what they were
    before, however it ends. *)
Definition mframe {A} (m : MM A) : Prop :=
  forall mem, exists evs,
    snd (m mem) = mkMemory (ext (state mem) evs) (arrays mem) (handlers mem).

(** *** Further vocabulary *)

(** The names looked up in DNS, in the order of the trace. *)
Fixpoint lookups (tr : list Event) : list string :=
  match tr with
  | [] => []
  | ELookupMX name :: tr' => name :: lookups tr'
  | _ :: tr' => lookups tr'
  end.

(** The domain the loop body looks up for a recipient. *)
Definition domain_of (recipient domain : string) : Prop :=
  nth_error (Split recipient at_sign) 1 = Some domain.

(** [strings.Join(elems, sep)] *)
Fixpoint Join (elems : list string) (sep : string) : string :=
  match elems with
  | [] => EmptyString
  | x :: rest =>
      match rest with
      | [] => x
      | _ :: _ => x +++ sep +++ Join rest sep
      end
  end.

(** How often the byte occurs in the string. *)
Fixpoint count_byte (s : string) (c : ascii) : nat :=
  match s with
  | EmptyString => 0
  | String d s' => (if Ascii.eqb d c then 1 else 0) + count_byte s' c
  end.

Definition dash : ascii := "-"%char.

(** The message of Go's panic on a nil or dangling pointer. *)
Definition nil_dereference : string :=
  "runtime error: invalid memory address or nil pointer dereference".

(** The time stamped posts of [k] successive rounds of the Slack loop,
    the clock having been read [c] times before. *)
Definition slack_rounds (W : World) (handler : SlackHandler.t) (text : string) (c k : nat)
  : list (string * WebhookMessage) :=
  map (fun j => (SlackHandler.Token handler, slack_payload text (Now_Unix W (c + j))))
    (seq 0 k).

(** Two entities whose names share a dash, at addresses 1 and 2. *)
Module Dashed.

Definition api_v2 : AlertState :=
  {| Service := "api-v2"; Tag := "blue"; Node := "n1"; Status := "critical";
     Message := "api-v2 unhealthy"; Details := "" |}.

Definition api : AlertState :=
  {| Service := "api"; Tag := "v2-blue"; Node := "n1"; Status := "critical";
     Message := "api unhealthy"; Details := "" |}.

Definition st0 : State :=
  {| heap := fun p => match p with 1 => Some api_v2 | 2 => Some api | _ => None end;
     trace := [] |}.

End Dashed.

(** A world whose DNS answers every lookup with success and no record. *)
Definition hollow : World :=
  {| unicode_ToLower := fun s => s;
     LookupMX := fun _ _ => ([], None);
     DialAndSend := fun _ _ _ => None;
     Trigger := fun _ _ _ _ _ _ _ => mkPDResponse [];
     Resolve := fun _ _ _ _ _ => mkPDResponse [];
     PostWebhook := fun _ _ _ => None;
     Now_Unix := fun n => Z.of_nat n |}.

(** A world whose webhook and mail server refuse twice and then accept. *)
Definition third_time_lucky : World :=
  {| unicode_ToLower := fun s => s;
     LookupMX := fun _ name => ([mkMX ("mx." +++ name) 10], None);
     DialAndSend := fun n _ _ => if (n <? 2)%nat then Some "busy" else None;
     Trigger := fun _ _ _ _ _ _ _ => mkPDResponse [];
     Resolve := fun _ _ _ _ _ => mkPDResponse [];
     PostWebhook := fun n _ _ => if (n <? 2)%nat then Some "busy" else None;
     Now_Unix := fun n => (1700000000 + 5 * Z.of_nat n)%Z |}.

(* ================================================================= *)
(** * Properties *)

(** ** Runs, frames and counts *)

Lemma ext_nil st : ext st [] = st.
Proof. destruct st; unfold ext; simpl; now rewrite app_nil_r. Qed.

Lemma ext_ext st a b : ext (ext st a) b = ext st (a ++ b).
Proof. unfold ext; simpl; now rewrite app_assoc. Qed.

Lemma heap_ext st evs : heap (ext st evs) = heap st.
Proof. reflexivity. Qed.

Lemma count_app f a b : count f (a ++ b) = (count f a + count f b)%nat.
Proof. unfold count; now rewrite filter_app, length_app. Qed.

Lemma count_ext f st evs : count f (trace (ext st evs)) = (count f (trace st) + count f evs)%nat.
Proof. apply count_app. Qed.

(** *** the monad *)

Lemma bind_normal {A B} (m : M A) (k : A -> M B) st a st' :
  m st = (Normal a, st') -> bind m k st = k a st'.
Proof. intros H; unfold bind; now rewrite H. Qed.

Lemma bind_assoc {A B C} (m : M A) (k : A -> M B) (k' : B -> M C) st :
  bind (bind m k) k' st = bind m (fun a => bind (k a) k') st.
Proof.
  unfold bind; destruct (m st) as [[a| | |] st1]; try reflexivity.
Qed.

Lemma bind_ext {A B} (m : M A) (k k' : A -> M B) st :
  (forall a st1, k a st1 = k' a st1) -> bind m k st = bind m k' st.
Proof.
  intros H; unfold bind; destruct (m st) as [[a| | |] st1]; try reflexivity. apply H.
Qed.

Lemma field_ok {A} (f : AlertState -> A) p st a :
  heap st p = Some a -> field f p st = (Normal (f a), st).
Proof. intros H; unfold field, bind, deref, ret; now rewrite H. Qed.

Lemma for_range_app {A} (xs ys : list A) (body : A -> M unit) st :
  for_range (xs ++ ys) body st = bind (for_range xs body) (fun _ => for_range ys body) st.
Proof.
  revert st; induction xs as [|x xs IH]; intros st; simpl.
  - reflexivity.
  - rewrite bind_assoc. apply bind_ext; intros _ st1. apply IH.
Qed.

(** *** frames *)

Lemma frame_ret {A} (a : A) : frame (ret a).
Proof. intros st; exists []; simpl; now rewrite ext_nil. Qed.

Lemma frame_panic {A} v : frame (@panic A v).
Proof. intros st; exists []; simpl; now rewrite ext_nil. Qed.

Lemma frame_exit {A} c : frame (@os_Exit A c).
Proof. intros st; exists []; simpl; now rewrite ext_nil. Qed.

Lemma frame_out_of_fuel {A} : frame (@out_of_fuel A).
Proof. intros st; exists []; simpl; now rewrite ext_nil. Qed.

Lemma frame_emit e : frame (emit e).
Proof. intros st; now exists [e]. Qed.

Lemma frame_bind {A B} (m : M A) (k : A -> M B) :
  frame m -> (forall a, frame (k a)) -> frame (bind m k).
Proof.
  intros Hm Hk st. destruct (Hm st) as [e1 H1]. unfold bind.
  destruct (m st) as [[a| | |] st1]; simpl in H1; subst st1;
    try (now exists e1).
  destruct (Hk a (ext st e1)) as [e2 H2]. exists (e1 ++ e2).
  now rewrite H2, ext_ext.
Qed.

Lemma frame_deref p : frame (deref p).
Proof.
  intros st; exists []; unfold deref; destruct (heap st p); simpl; now rewrite ext_nil.
Qed.

Lemma frame_field {A} (f : AlertState -> A) p : frame (field f p).
Proof. apply frame_bind; [apply frame_deref | intros; apply frame_ret]. Qed.

Lemma frame_index {A} (xs : list A) i : frame (index xs i).
Proof. unfold index; destruct (nth_error xs i); [apply frame_ret | apply frame_panic]. Qed.

Lemma frame_for_range {A} (xs : list A) (body : A -> M unit) :
  (forall x, frame (body x)) -> frame (for_range xs body).
Proof.
  intros Hb; induction xs as [|x xs IH]; simpl.
  - apply frame_ret.
  - apply frame_bind; [apply Hb | intros _; apply IH].
Qed.

Lemma frame_now W : frame (time_Now_Unix W).
Proof. intros st; now exists [ENow]. Qed.

Lemma frame_lookup W name : frame (net_LookupMX W name).
Proof. intros st; now exists [ELookupMX name]. Qed.

Lemma frame_send W d m : frame (Dialer_DialAndSend W d m).
Proof. intros st; now exists [EDialAndSend d m]. Qed.

Lemma frame_trigger W c k d cl u ds : frame (PDClient_Trigger W c k d cl u ds).
Proof. intros st; now exists [ETrigger c k d cl u ds]. Qed.

Lemma frame_resolve W c k d ds : frame (PDClient_Resolve W c k d ds).
Proof. intros st; now exists [EResolve c k d ds]. Qed.

Lemma frame_post W url msg : frame (slack_PostWebhook W url msg).
Proof. intros st; now exists [EPostWebhook url msg]. Qed.

Create HintDb frame.
#[export] Hint Resolve frame_ret frame_panic frame_exit frame_out_of_fuel frame_emit
  frame_deref frame_field frame_index frame_now frame_lookup frame_send
  frame_trigger frame_resolve frame_post : frame.

Ltac frame_step :=
  first [ apply frame_bind; [ | intros ? ]
        | apply frame_for_range; intros ?
        | solve [ auto with frame ]
        | match goal with
          | |- frame (match ?x with _ => _ end) => destruct x
          | |- frame (if ?b then _ else _) => destruct b
          | |- frame (let (_, _) := ?x in _) => destruct x
          end ].

Ltac frame_auto := repeat frame_step.

Lemma frame_Logger_Panic lg line : frame (Logger_Panic lg line).
Proof. unfold Logger_Panic; frame_auto. Qed.

Lemma frame_Logger_Fatal lg line : frame (Logger_Fatal lg line).
Proof. unfold Logger_Fatal; frame_auto. Qed.

#[export] Hint Resolve frame_Logger_Panic frame_Logger_Fatal : frame.
#[export] Hint Unfold Logger_Error Logger_Warn Logger_Info Logger_Debug log_Error
  fmt_Println time_Sleep : frame.

Lemma frame_StdoutHandler W h dc p : frame (StdoutHandler.Alert W h dc p).
Proof.
  unfold StdoutHandler.Alert, StdoutHandler.emit_line; frame_auto;
    autounfold with frame; auto with frame.
Qed.

Lemma frame_Email_retry fuel W h d m t : frame (EmailHandler.retry fuel W h d m t).
Proof.
  revert t; induction fuel as [|fuel IH]; intros t; simpl.
  - auto with frame.
  - frame_auto; autounfold with frame; auto with frame.
Qed.

Lemma frame_Email_body fuel W h p r : frame (EmailHandler.body fuel W h p r).
Proof.
  unfold EmailHandler.body; frame_auto;
    autounfold with frame; auto using frame_Email_retry with frame.
Qed.

Lemma frame_EmailHandler fuel W h dc p : frame (EmailHandler.Alert fuel W h dc p).
Proof.
  unfold EmailHandler.Alert. apply frame_for_range; intros r. apply frame_Email_body.
Qed.

Lemma frame_PagerdutyHandler W h dc p : frame (PagerdutyHandler.Alert W h dc p).
Proof.
  unfold PagerdutyHandler.Alert; frame_auto; autounfold with frame; auto with frame.
Qed.

Lemma frame_Slack_retry fuel W h msg t : frame (SlackHandler.retry fuel W h msg t).
Proof.
  revert t; induction fuel as [|fuel IH]; intros t; simpl.
  - auto with frame.
  - frame_auto; autounfold with frame; auto with frame.
Qed.

Lemma frame_SlackHandler fuel W h dc p : frame (SlackHandler.Alert fuel W h dc p).
Proof.
  unfold SlackHandler.Alert; frame_auto; auto using frame_Slack_retry.
Qed.

Lemma frame_Handler fuel W (h : Handler) dc p : frame (Alert fuel W h dc p).
Proof.
  destruct h; simpl.
  - apply frame_StdoutHandler.
  - apply frame_EmailHandler.
  - apply frame_PagerdutyHandler.
  - apply frame_SlackHandler.
Qed.

Lemma skipn_length_app {A} (l evs : list A) : skipn (List.length l) (l ++ evs) = evs.
Proof. induction l as [|x l IH]; simpl; auto. Qed.

Lemma issued_ext {A} (m : M A) st r evs : m st = (r, ext st evs) -> issued m st = evs.
Proof. intros H; unfold issued; rewrite H; simpl. apply skipn_length_app. Qed.


(** ** The PagerDuty handler *)

Section Pagerduty.

Variables (W : World) (handler : PagerdutyHandler.t) (datacenter : string) (alert : ptr).
Variable a : AlertState.

Lemma pd_log_errors errs st :
  heap st alert = Some a ->
  for_range errs (fun err =>
    details <- field Details alert ;;
    message <- field Message alert ;;
    log_Error (PagerdutyHandler.error_line err details message)) st
  = (Normal tt, ext st (map (pd_error_log a) errs)).
Proof.
  revert st; induction errs as [|err errs IH]; intros st Hp; simpl.
  - unfold ret; now rewrite ext_nil.
  - rewrite bind_assoc, (bind_normal _ _ _ _ _ (field_ok Details _ _ _ Hp)).
    rewrite bind_assoc, (bind_normal _ _ _ _ _ (field_ok Message _ _ _ Hp)).
    unfold bind at 1; simpl.
    change (mkState (heap st) (trace st ++ [ELog StdLogger ErrorLevel
              (PagerdutyHandler.error_line err (Details a) (Message a))]))
      with (ext st [pd_error_log a err]).
    rewrite IH by exact Hp. now rewrite ext_ext.
Qed.

Lemma Pagerduty_run st :
  heap st alert = Some a ->
  PagerdutyHandler.Alert W handler datacenter alert st
  = (Normal tt,
     ext st (pd_call handler datacenter a
             :: map (pd_error_log a)
                  (Errors (pd_answer W handler datacenter a (count is_pd_call (trace st)))))).
Proof.
  intros Hp. unfold PagerdutyHandler.Alert, pd_call, pd_answer.
  rewrite (bind_normal _ _ _ _ _ (field_ok Service _ _ _ Hp)).
  rewrite (bind_normal _ _ _ _ _ (field_ok Tag _ _ _ Hp)).
  rewrite (bind_normal _ _ _ _ _ (field_ok Node _ _ _ Hp)).
  rewrite (bind_normal _ _ _ _ _ (field_ok Status _ _ _ Hp)).
  fold (pd_key datacenter a). simpl NewClient. simpl pdServiceKey. fold (pd_client handler).
  unfold HealthPassing.
  destruct (Status a =? "passing"); simpl negb; cbv iota.
  - rewrite !bind_assoc, (bind_normal _ _ _ _ _ (field_ok Message _ _ _ Hp)).
    rewrite !bind_assoc, (bind_normal _ _ _ _ _ (field_ok Details _ _ _ Hp)).
    unfold bind at 1, PDClient_Resolve.
    match goal with |- for_range _ _ ?s = _ =>
      change s with (ext st [EResolve (pd_client handler) (pd_key datacenter a)
                               (Message a) (Details a)]) end.
    rewrite pd_log_errors by exact Hp. now rewrite ext_ext.
  - rewrite !bind_assoc, (bind_normal _ _ _ _ _ (field_ok Message _ _ _ Hp)).
    rewrite !bind_assoc, (bind_normal _ _ _ _ _ (field_ok Details _ _ _ Hp)).
    unfold bind at 1, PDClient_Trigger.
    match goal with |- for_range _ _ ?s = _ =>
      change s with (ext st [ETrigger (pd_client handler) (pd_key datacenter a)
                               (Message a) "" "" (Details a)]) end.
    rewrite pd_log_errors by exact Hp. now rewrite ext_ext.
Qed.

Lemma incident_keys_logs errs : incident_keys (map (pd_error_log a) errs) = [].
Proof. induction errs; simpl; auto. Qed.

Lemma pd_calls_logs errs : filter is_pd_call (map (pd_error_log a) errs) = [].
Proof. induction errs; simpl; auto. Qed.

Lemma incident_keys_pd_call tr :
  incident_keys (pd_call handler datacenter a :: tr) = pd_key datacenter a :: incident_keys tr.
Proof. unfold pd_call; destruct (Status a =? "passing"); reflexivity. Qed.

Lemma is_pd_call_pd_call : is_pd_call (pd_call handler datacenter a) = true.
Proof. unfold pd_call; destruct (Status a =? "passing"); reflexivity. Qed.

Lemma Pagerduty_keys st :
  heap st alert = Some a ->
  incident_keys (issued (PagerdutyHandler.Alert W handler datacenter alert) st)
  = [pd_key datacenter a].
Proof.
  intros Hp. rewrite (issued_ext _ _ _ _ (Pagerduty_run st Hp)).
  now rewrite incident_keys_pd_call, incident_keys_logs.
Qed.

End Pagerduty.

(** C1. The incident key of the PagerDuty call is the data center, the
    service, the tag and the node joined by dashes, whatever the status,
    the message and the details are: two alerts of the same entity in the
    same data center, one triggering and one resolving, are sent under the
    same key, by any PagerDuty handler, in any world, from any state. *)
Theorem incident_key_is_stable :
  forall fuel W (h : PagerdutyHandler.t) datacenter p a st,
    heap st p = Some a ->
    incident_keys (issued (Alert fuel W h datacenter p) st)
      = [datacenter +++ "-" +++ Service a +++ "-" +++ Tag a +++ "-" +++ Node a]
    /\ forall fuel' W' (h' : PagerdutyHandler.t) p' a' st',
         heap st' p' = Some a' ->
         Service a' = Service a -> Tag a' = Tag a -> Node a' = Node a ->
         incident_keys (issued (Alert fuel' W' h' datacenter p') st')
         = incident_keys (issued (Alert fuel W h datacenter p) st).
Proof.
  intros fuel W h dc p a st Hp. simpl Alert. split.
  - exact (Pagerduty_keys W h dc p a st Hp).
  - intros fuel' W' h' p' a' st' Hp' Hs Ht Hn.
    rewrite (Pagerduty_keys W' h' dc p' a' st' Hp'), (Pagerduty_keys W h dc p a st Hp).
    unfold pd_key. now rewrite Hs, Ht, Hn.
Qed.

Lemma incident_key_is_stable_witness :
  incident_keys (issued (Alert 0 Sample.down (PagerdutyHandler.mk "key" 3) "us-east" 1)
                   Sample.st0)
    = ["us-east-web-v2-node-1"]
  /\ incident_keys (issued (Alert 0 Sample.calm (PagerdutyHandler.mk "key" 3) "us-east" 2)
                      Sample.st0)
     = incident_keys (issued (Alert 0 Sample.down (PagerdutyHandler.mk "key" 3) "us-east" 1)
                        Sample.st0).
Proof.
  destruct (incident_key_is_stable 0 Sample.down (PagerdutyHandler.mk "key" 3) "us-east" 1
              Sample.web Sample.st0 eq_refl) as [Hkey Hsame].
  split.
  - exact Hkey.
  - exact (Hsame 0 Sample.calm (PagerdutyHandler.mk "key" 3) 2 Sample.web_ok Sample.st0
             eq_refl eq_refl eq_refl eq_refl).
Defined.

(** C2. The PagerDuty handler makes exactly one call to the incident
    service and returns: a trigger with the key, the message as
    description and the details when the status is not passing, a resolve
    with the same key when it is; everything else it does is logging the
    errors of the answer. *)
Theorem one_trigger_or_resolve :
  forall fuel W (h : PagerdutyHandler.t) datacenter p a st,
    heap st p = Some a ->
    let key := datacenter +++ "-" +++ Service a +++ "-" +++ Tag a +++ "-" +++ Node a in
    let client := mkPDClient (PagerdutyHandler.ServiceKey h) (PagerdutyHandler.MaxRetries h) in
    let call := if Status a =? "passing"
                then EResolve client key (Message a) (Details a)
                else ETrigger client key (Message a) "" "" (Details a) in
    fst (Alert fuel W h datacenter p st) = Normal tt
    /\ filter is_pd_call (issued (Alert fuel W h datacenter p) st) = [call]
    /\ exists errs,
         issued (Alert fuel W h datacenter p) st
         = call :: map (fun err => ELog StdLogger ErrorLevel
                          ("Error sending alert to PagerDuty: " +++ err +++ " (details: "
                           +++ Details a +++ ", message: " +++ Message a +++ ")")) errs.
Proof.
  intros fuel W h dc p a st Hp key client call. simpl Alert.
  pose proof (Pagerduty_run W h dc p a st Hp) as Hrun.
  rewrite (issued_ext _ _ _ _ Hrun), Hrun. simpl fst.
  cbn [filter]. rewrite is_pd_call_pd_call, pd_calls_logs.
  split; [reflexivity | split; [reflexivity |]].
  eexists. reflexivity.
Qed.

Lemma one_trigger_or_resolve_witness :
  fst (Alert 0 Sample.calm (PagerdutyHandler.mk "key" 3) "us-east" 2 Sample.st0) = Normal tt
  /\ filter is_pd_call
       (issued (Alert 0 Sample.calm (PagerdutyHandler.mk "key" 3) "us-east" 2) Sample.st0)
     = [EResolve (mkPDClient "key" 3) "us-east-web-v2-node-1" "web healthy" ""].
Proof.
  destruct (one_trigger_or_resolve 0 Sample.calm (PagerdutyHandler.mk "key" 3) "us-east" 2
              Sample.web_ok Sample.st0 eq_refl) as [Hret [Hcall _]].
  split; [exact Hret | exact Hcall].
Defined.

(** ** The console handler *)

Section Console.

Variables (W : World) (handler : StdoutHandler.t).

Lemma emit_line_run line st :
  StdoutHandler.emit_line W handler line st
  = match configured_level (ToLower W (StdoutHandler.LogLevel handler)) with
    | Some PanicLevel =>
        (Panicked line, ext st [ELog (StdoutHandler.logger handler) PanicLevel line])
    | Some FatalLevel =>
        (Exited 1, ext st [ELog (StdoutHandler.logger handler) FatalLevel line])
    | Some lvl => (Normal tt, ext st [ELog (StdoutHandler.logger handler) lvl line])
    | None => (Normal tt, st)
    end.
Proof.
  unfold StdoutHandler.emit_line, configured_level.
  destruct (ToLower W (StdoutHandler.LogLevel handler) =? "panic"); [reflexivity|].
  destruct (ToLower W (StdoutHandler.LogLevel handler) =? "fatal"); [reflexivity|].
  destruct (ToLower W (StdoutHandler.LogLevel handler) =? "error"); [reflexivity|].
  destruct (ToLower W (StdoutHandler.LogLevel handler) =? "warn"); [reflexivity|].
  destruct (ToLower W (StdoutHandler.LogLevel handler) =? "warning"); [reflexivity|].
  destruct (ToLower W (StdoutHandler.LogLevel handler) =? "info"); [reflexivity|].
  destruct (ToLower W (StdoutHandler.LogLevel handler) =? "debug"); reflexivity.
Qed.

Lemma emit_lines_run text st :
  for_range text (StdoutHandler.emit_line W handler) st
  = match configured_level (ToLower W (StdoutHandler.LogLevel handler)), text with
    | Some PanicLevel, line :: _ =>
        (Panicked line, ext st [ELog (StdoutHandler.logger handler) PanicLevel line])
    | Some FatalLevel, line :: _ =>
        (Exited 1, ext st [ELog (StdoutHandler.logger handler) FatalLevel line])
    | Some lvl, _ => (Normal tt, ext st (map (ELog (StdoutHandler.logger handler) lvl) text))
    | None, _ => (Normal tt, st)
    end.
Proof.
  revert st; induction text as [|line text IH]; intros st.
  - simpl. unfold ret. rewrite ext_nil.
    destruct (configured_level _) as [[]|]; reflexivity.
  - simpl for_range. unfold bind. rewrite emit_line_run.
    destruct (configured_level _) as [[]|]; try reflexivity;
      rewrite IH; simpl map; now rewrite ?ext_ext.
Qed.

Lemma Console_run datacenter alert a st :
  heap st alert = Some a ->
  StdoutHandler.Alert W handler datacenter alert st
  = for_range (Message a :: detail_lines a) (StdoutHandler.emit_line W handler) st.
Proof.
  intros Hp. unfold StdoutHandler.Alert, detail_lines.
  rewrite (bind_normal _ _ _ _ _ (field_ok Message _ _ _ Hp)).
  rewrite (bind_normal _ _ _ _ _ (field_ok Details _ _ _ Hp)).
  destruct (Details a =? ""); reflexivity.
Qed.

End Console.

(** C6, as the code has it.  The level is the configured name lowered by
    [strings.ToLower].  For error, warn or warning, info and debug the
    handler logs the message first and then every line of the details
    (none when the details are empty), each as an entry of its own at that
    level, and returns.  For panic and fatal it logs the message at that
    level and the call ends there, by a panic or by leaving the process.
    For any other name nothing is logged. *)
Theorem console_lines :
  forall fuel W (h : StdoutHandler.t) datacenter p a st,
    heap st p = Some a ->
    let lg := StdoutHandler.logger h in
    Alert fuel W h datacenter p st
    = match configured_level (ToLower W (StdoutHandler.LogLevel h)) with
      | Some PanicLevel => (Panicked (Message a), ext st [ELog lg PanicLevel (Message a)])
      | Some FatalLevel => (Exited 1, ext st [ELog lg FatalLevel (Message a)])
      | Some lvl =>
          (Normal tt,
           ext st (ELog lg lvl (Message a)
                   :: map (ELog lg lvl)
                        (if Details a =? "" then [] else Split (Details a) newline)))
      | None => (Normal tt, st)
      end.
Proof.
  intros fuel W h dc p a st Hp lg. simpl Alert.
  rewrite (Console_run W h dc p a st Hp), emit_lines_run.
  destruct (configured_level _) as [[]|]; reflexivity.
Qed.

Lemma console_lines_witness :
  Alert 0 Sample.calm (StdoutHandler.mk "Warn" (HandlerLogger 1)) "us-east" 1 Sample.st0
  = (Normal tt,
     ext Sample.st0 [ELog (HandlerLogger 1) WarnLevel "web unhealthy";
                     ELog (HandlerLogger 1) WarnLevel "line1";
                     ELog (HandlerLogger 1) WarnLevel "line2"]).
Proof.
  exact (console_lines 0 Sample.calm (StdoutHandler.mk "Warn" (HandlerLogger 1)) "us-east" 1
           Sample.web Sample.st0 eq_refl).
Defined.

(** C6 as stated fails: at level panic the details have two lines and
    neither is logged, only the message is. *)
Lemma console_panic_logs_message_only :
  issued (Alert 0 Sample.calm (StdoutHandler.mk "panic" (HandlerLogger 1)) "us-east" 1)
    Sample.st0
  = [ELog (HandlerLogger 1) PanicLevel "web unhealthy"]
  /\ map (ELog (HandlerLogger 1) PanicLevel)
       (Message Sample.web :: Split (Details Sample.web) newline)
     = [ELog (HandlerLogger 1) PanicLevel "web unhealthy";
        ELog (HandlerLogger 1) PanicLevel "line1";
        ELog (HandlerLogger 1) PanicLevel "line2"]
  /\ issued (Alert 0 Sample.calm (StdoutHandler.mk "panic" (HandlerLogger 1)) "us-east" 1)
       Sample.st0
     <> map (ELog (HandlerLogger 1) PanicLevel)
          (Message Sample.web :: Split (Details Sample.web) newline).
Proof.
  split; [reflexivity | split; [reflexivity | discriminate]].
Qed.

(** C4 as stated fails: a console handler configured with level panic
    panics in its caller. *)
Lemma console_panic_raises :
  fst (Alert 0 Sample.calm (Console (StdoutHandler.mk "panic" (HandlerLogger 1))) "us-east" 1
         Sample.st0)
  = Panicked "web unhealthy".
Proof. reflexivity. Qed.

(** ** Strings and integers *)

Lemma Split_not_nil s c : Split s c <> [].
Proof.
  destruct s as [|d s]; simpl; [discriminate|].
  destruct (Ascii.eqb d c); [discriminate|].
  destruct (Split s c); discriminate.
Qed.

Lemma Split_without_separator s c : contains_byte s c = false -> Split s c = [s].
Proof.
  induction s as [|d s IH]; simpl; intros H; [reflexivity|].
  apply orb_false_elim in H as [Hd Hs]. rewrite Hd, (IH Hs). reflexivity.
Qed.

Lemma Split_with_separator s c :
  contains_byte s c = true -> exists x y rest, Split s c = x :: y :: rest.
Proof.
  induction s as [|d s IH]; simpl; intros H; [discriminate|].
  destruct (Ascii.eqb d c) eqn:Hd.
  - destruct (Split s c) as [|y rest] eqn:Hs; [now apply Split_not_nil in Hs|].
    now exists EmptyString, y, rest.
  - simpl in H. destruct (IH H) as (x & y & rest & Hs). rewrite Hs.
    now exists (String d x), y, rest.
Qed.

Lemma incr_small t : (GoInt.min_int <= t < GoInt.max_int)%Z -> GoInt.incr t = (t + 1)%Z.
Proof.
  unfold GoInt.incr, GoInt.wrap, GoInt.min_int, GoInt.max_int, GoInt.bits.
  change (2 ^ (64 - 1))%Z with 9223372036854775808%Z.
  change (2 ^ 64)%Z with 18446744073709551616%Z.
  intros H. rewrite Z.mod_small; lia.
Qed.

Lemma incr_in_range t : GoInt.in_range (GoInt.incr t).
Proof.
  unfold GoInt.in_range, GoInt.incr, GoInt.wrap, GoInt.min_int, GoInt.max_int, GoInt.bits.
  change (2 ^ (64 - 1))%Z with 9223372036854775808%Z.
  change (2 ^ 64)%Z with 18446744073709551616%Z.
  match goal with
  | |- context [Z.modulo ?x ?y] => pose proof (Z.mod_pos_bound x y ltac:(lia))
  end.
  lia.
Qed.

(** ** Counting attempts *)

(** The number of attempts of a loop that allows [n] of them, stopped
    after [f] failures by a success if [f < n]: the least of [n] and the
    number of attempts until the first success. *)
Lemma attempts_min (o : nat -> option string) (n f : nat) :
  (f <= n)%nat -> all_fail o f -> ((f < n)%nat -> o f = None) ->
  let attempts := (f + if (f <? n)%nat then 1 else 0)%nat in
  (forall k, first_success o k -> attempts = Nat.min (k + 1) n)
  /\ (all_fail o n -> attempts = n).
Proof.
  intros Hle Hfail Hok attempts. subst attempts.
  destruct (f <? n)%nat eqn:Hlt.
  - apply Nat.ltb_lt in Hlt. specialize (Hok Hlt). split.
    + intros k [Hk Hbefore].
      assert (k = f) as ->.
      { destruct (Nat.lt_trichotomy k f) as [H|[H|H]]; auto.
        - now apply Hfail in H.
        - now apply Hbefore in H. }
      lia.
    + intros Hall. now apply Hall in Hlt.
  - apply Nat.ltb_ge in Hlt. assert (f = n) as -> by lia. split.
    + intros k [Hk Hbefore].
      assert (n <= k)%nat.
      { destruct (Nat.le_gt_cases n k) as [H|H]; auto. now apply Hfail in H. }
      lia.
    + intros _; lia.
Qed.

Lemma errors_all_fail o errs : errors_of o errs -> all_fail o (List.length errs).
Proof.
  intros H j Hj. destruct (nth_error errs j) as [e|] eqn:He.
  - rewrite (H j e He); discriminate.
  - apply nth_error_None in He; lia.
Qed.

Lemma errors_of_cons (o : nat -> option string) e errs :
  o 0%nat = Some e -> errors_of (fun j => o (S j)) errs -> errors_of o (e :: errs).
Proof.
  intros H0 H [|j] e'; simpl; intros He.
  - now injection He as <-.
  - now apply H.
Qed.

(** ** The e-mail handler *)

Section Email.

Variables (W : World) (handler : EmailHandler.t).

Lemma count_send_failure d m e : count is_send (email_failure d m e) = 1%nat.
Proof. reflexivity. Qed.

(** One round of the loop, when the delivery fails. *)
Lemma Email_retry_failure fuel d m t st e :
  (t <= EmailHandler.MaxRetries handler)%Z ->
  DialAndSend W (count is_send (trace st)) d m = Some e ->
  EmailHandler.retry (S fuel) W handler d m t st
  = EmailHandler.retry fuel W handler d m (GoInt.incr t) (ext st (email_failure d m e)).
Proof.
  intros Ht He. simpl EmailHandler.retry.
  apply Z.leb_le in Ht; rewrite Ht.
  unfold bind, Dialer_DialAndSend, log_Error, Logger_Error, time_Sleep, emit.
  rewrite He. cbn [heap trace].
  unfold ext, email_failure. rewrite <- !app_assoc. reflexivity.
Qed.

(** One round of the loop, when the delivery succeeds. *)
Lemma Email_retry_success fuel d m t st :
  (t <= EmailHandler.MaxRetries handler)%Z ->
  DialAndSend W (count is_send (trace st)) d m = None ->
  EmailHandler.retry (S fuel) W handler d m t st = (Normal tt, ext st [EDialAndSend d m]).
Proof.
  intros Ht He. simpl EmailHandler.retry.
  apply Z.leb_le in Ht; rewrite Ht.
  unfold bind at 1, Dialer_DialAndSend. rewrite He. reflexivity.
Qed.

(** The loop is over when [tries] has passed [MaxRetries]. *)
Lemma Email_retry_done fuel d m t st :
  (EmailHandler.MaxRetries handler < t)%Z ->
  EmailHandler.retry (S fuel) W handler d m t st = (Normal tt, st).
Proof.
  intros Ht. simpl EmailHandler.retry.
  apply Z.leb_gt in Ht; rewrite Ht. reflexivity.
Qed.

(** With a budget below the greatest [int] the loop returns, after the
    failures [errs] and one success if the budget was not used up. *)
Lemma Email_retry_run d m :
  (EmailHandler.MaxRetries handler < GoInt.max_int)%Z ->
  forall n fuel t st,
    (0 <= t)%Z ->
    n = Z.to_nat (EmailHandler.MaxRetries handler + 1 - t) ->
    (n < fuel)%nat ->
    exists errs,
      (List.length errs <= n)%nat
      /\ errors_of (fun j => DialAndSend W (count is_send (trace st) + j) d m) errs
      /\ ((List.length errs < n)%nat ->
          DialAndSend W (count is_send (trace st) + List.length errs) d m = None)
      /\ EmailHandler.retry fuel W handler d m t st
         = (Normal tt, ext st (email_attempts d m errs (List.length errs <? n)%nat)).
Proof.
  intros Hmax. induction n as [|n IH]; intros fuel t st Ht Hn Hfuel;
    (destruct fuel as [|fuel]; [lia|]).
  - exists []. repeat split.
    + simpl; lia.
    + intros j e Hj; now destruct j.
    + simpl; lia.
    + rewrite Email_retry_done by lia. unfold email_attempts; simpl. now rewrite ext_nil.
  - destruct (DialAndSend W (count is_send (trace st)) d m) as [e|] eqn:He.
    + destruct (IH fuel (GoInt.incr t) (ext st (email_failure d m e)))
        as (errs & Hlen & Herrs & Hok & Hrun).
      * rewrite incr_small; unfold GoInt.min_int, GoInt.bits;
          change (2 ^ (64 - 1))%Z with 9223372036854775808%Z; lia.
      * rewrite incr_small; unfold GoInt.min_int, GoInt.bits;
          change (2 ^ (64 - 1))%Z with 9223372036854775808%Z; lia.
      * lia.
      * rewrite count_ext, count_send_failure in Herrs, Hok.
        exists (e :: errs). repeat split.
        -- simpl; lia.
        -- apply errors_of_cons.
           ++ now rewrite Nat.add_0_r.
           ++ intros j e' Hj. rewrite <- (Herrs j e' Hj). f_equal; lia.
        -- simpl List.length. intros Hlt. rewrite <- Hok by lia. f_equal; lia.
        -- rewrite (Email_retry_failure fuel d m t st e) by (lia || exact He).
           rewrite Hrun, ext_ext.
           unfold email_attempts. simpl List.length. simpl flat_map.
           change (S (List.length errs) <? S n)%nat with (List.length errs <? n)%nat.
           now rewrite <- ?app_assoc.
    + exists []. repeat split.
      * simpl; lia.
      * intros j e Hj; now destruct j.
      * intros _. simpl. now rewrite Nat.add_0_r.
      * rewrite Email_retry_success by (lia || exact He). reflexivity.
Qed.

(** The loop never raises, whatever the fuel and the budget. *)
Lemma Email_retry_safe d m fuel :
  forall t st, raises (fst (EmailHandler.retry fuel W handler d m t st)) = false.
Proof.
  induction fuel as [|fuel IH]; intros t st; [reflexivity|].
  destruct (Z.leb_spec t (EmailHandler.MaxRetries handler)) as [Ht|Ht].
  - destruct (DialAndSend W (count is_send (trace st)) d m) as [e|] eqn:He.
    + rewrite (Email_retry_failure _ _ _ _ _ e Ht He). apply IH.
    + now rewrite (Email_retry_success _ _ _ _ _ Ht He).
  - now rewrite Email_retry_done.
Qed.

(** Every delivery of the loop goes through the same dialer with the same
    message, and there is at least one when the loop is entered. *)
Lemma Email_retry_sends d m fuel :
  forall t st, exists r k,
    EmailHandler.retry fuel W handler d m t st
    = (r, ext st (snd k))
    /\ sends (snd k) = repeat (d, m) (fst k)
    /\ ((0 < fuel)%nat -> (t <= EmailHandler.MaxRetries handler)%Z -> (0 < fst k)%nat).
Proof.
  induction fuel as [|fuel IH]; intros t st.
  - exists OutOfFuel, (0%nat, []). simpl. rewrite ext_nil. repeat split. lia.
  - destruct (Z.leb_spec t (EmailHandler.MaxRetries handler)) as [Ht|Ht].
    + destruct (DialAndSend W (count is_send (trace st)) d m) as [e|] eqn:He.
      * rewrite (Email_retry_failure _ _ _ _ _ e Ht He).
        destruct (IH (GoInt.incr t) (ext st (email_failure d m e))) as (r & [k evs] & Hrun & Hs & _).
        exists r, (S k, email_failure d m e ++ evs). simpl in *.
        rewrite Hrun, ext_ext, Hs. repeat split. lia.
      * rewrite (Email_retry_success _ _ _ _ _ Ht He).
        exists (Normal tt), (1%nat, [EDialAndSend d m]). simpl. repeat split. lia.
    + rewrite Email_retry_done by exact Ht.
      exists (Normal tt), (0%nat, []). simpl. rewrite ext_nil. repeat split. lia.
Qed.

(** The loop body when the MX lookup fails: the error is logged and the
    body is over. *)
Lemma Email_body_lookup_failure fuel alert recipient domain records e st :
  nth_error (Split recipient at_sign) 1 = Some domain ->
  LookupMX W (count is_lookup (trace st)) domain = (records, Some e) ->
  EmailHandler.body fuel W handler alert recipient st
  = (Normal tt,
     ext st [ELookupMX domain;
             ELog StdLogger ErrorLevel ("Error looking up email server: " +++ e)]).
Proof.
  intros Hd Hl. unfold EmailHandler.body, index. rewrite Hd.
  unfold bind at 1, ret. unfold bind at 1, net_LookupMX. rewrite Hl.
  unfold log_Error, Logger_Error, emit, ext. simpl. now rewrite <- app_assoc.
Qed.

(** The loop body when the MX lookup succeeds with a record: the message
    is composed and the retry loop entered. *)
Lemma Email_body_lookup_success fuel alert a recipient domain mx records st :
  heap st alert = Some a ->
  nth_error (Split recipient at_sign) 1 = Some domain ->
  LookupMX W (count is_lookup (trace st)) domain = (mx :: records, None) ->
  EmailHandler.body fuel W handler alert recipient st
  = EmailHandler.retry fuel W handler (mail_dialer mx) (alert_mail recipient a) 0
      (ext st [ELookupMX domain]).
Proof.
  intros Hp Hd Hl. unfold EmailHandler.body, index. rewrite Hd.
  unfold bind at 1, ret. unfold bind at 1, net_LookupMX. rewrite Hl.
  assert (Hp' : heap (ext st [ELookupMX domain]) alert = Some a) by exact Hp.
  change (mkState (heap st) (trace st ++ [ELookupMX domain])) with (ext st [ELookupMX domain]).
  rewrite (bind_normal _ _ _ _ _ (field_ok Message _ _ _ Hp')).
  rewrite (bind_normal _ _ _ _ _ (field_ok Details _ _ _ Hp')).
  reflexivity.
Qed.

(** The loop body for a recipient without an at sign. *)
Lemma Email_body_no_at_sign fuel alert recipient st :
  contains_byte recipient at_sign = false ->
  EmailHandler.body fuel W handler alert recipient st
  = (Panicked "runtime error: index out of range [1] with length 1", st).
Proof.
  intros H. unfold EmailHandler.body. now rewrite (Split_without_separator _ _ H).
Qed.

(** Under the conditions of [well_configured] the loop body does not
    raise. *)
Lemma Email_body_safe fuel alert a recipient st :
  heap st alert = Some a ->
  contains_byte recipient at_sign = true ->
  mx_never_empty W ->
  raises (fst (EmailHandler.body fuel W handler alert recipient st)) = false.
Proof.
  intros Hp Hat Hmx.
  destruct (Split_with_separator _ _ Hat) as (x & domain & rest & Hs).
  assert (Hd : nth_error (Split recipient at_sign) 1 = Some domain) by now rewrite Hs.
  destruct (LookupMX W (count is_lookup (trace st)) domain) as [records [e|]] eqn:Hl.
  - now rewrite (Email_body_lookup_failure _ _ _ _ _ _ _ Hd Hl).
  - destruct records as [|mx records]; [now apply Hmx in Hl|].
    rewrite (Email_body_lookup_success _ _ _ _ _ _ _ _ Hp Hd Hl).
    apply Email_retry_safe.
Qed.

(** With enough fuel and a budget below the greatest [int] it returns. *)
Lemma Email_body_returns fuel alert a recipient st :
  heap st alert = Some a ->
  contains_byte recipient at_sign = true ->
  mx_never_empty W ->
  (EmailHandler.MaxRetries handler < GoInt.max_int)%Z ->
  (allowed (EmailHandler.MaxRetries handler) < fuel)%nat ->
  exists domain evs,
    nth_error (Split recipient at_sign) 1 = Some domain
    /\ EmailHandler.body fuel W handler alert recipient st
       = (Normal tt, ext st (ELookupMX domain :: evs)).
Proof.
  intros Hp Hat Hmx Hmax Hfuel.
  destruct (Split_with_separator _ _ Hat) as (x & domain & rest & Hs).
  assert (Hd : nth_error (Split recipient at_sign) 1 = Some domain) by now rewrite Hs.
  exists domain.
  destruct (LookupMX W (count is_lookup (trace st)) domain) as [records [e|]] eqn:Hl.
  - rewrite (Email_body_lookup_failure _ _ _ _ _ _ _ Hd Hl). eexists; split; [exact Hd | reflexivity].
  - destruct records as [|mx records]; [now apply Hmx in Hl|].
    rewrite (Email_body_lookup_success _ _ _ _ _ _ _ _ Hp Hd Hl).
    destruct (Email_retry_run (mail_dialer mx) (alert_mail recipient a) Hmax
                (allowed (EmailHandler.MaxRetries handler)) fuel 0
                (ext st [ELookupMX domain]) ltac:(lia)
                ltac:(unfold allowed; f_equal; lia) Hfuel)
      as (errs & _ & _ & _ & Hrun).
    rewrite Hrun, ext_ext. eexists; split; [exact Hd | reflexivity].
Qed.

Lemma Email_Alert_safe fuel alert a recipients :
  Forall (fun r => contains_byte r at_sign = true) recipients ->
  mx_never_empty W ->
  forall st, heap st alert = Some a ->
    raises (fst (for_range recipients (EmailHandler.body fuel W handler alert) st)) = false.
Proof.
  intros Hat Hmx.
  induction Hat as [|r rs Hr Hrs IH]; intros st Hp; [reflexivity|].
  simpl for_range. pose proof (Email_body_safe fuel alert a r st Hp Hr Hmx) as Hsafe.
  destruct (frame_Email_body fuel W handler alert r st) as [evs Hevs].
  unfold bind.
  destruct (EmailHandler.body fuel W handler alert r st) as [[[]| | |] st1];
    simpl in Hevs, Hsafe; subst st1; try discriminate; try reflexivity.
  now apply IH.
Qed.

Lemma Email_Alert_returns fuel alert a recipients :
  Forall (fun r => contains_byte r at_sign = true) recipients ->
  mx_never_empty W ->
  (EmailHandler.MaxRetries handler < GoInt.max_int)%Z ->
  (allowed (EmailHandler.MaxRetries handler) < fuel)%nat ->
  forall st, heap st alert = Some a ->
    fst (for_range recipients (EmailHandler.body fuel W handler alert) st) = Normal tt.
Proof.
  intros Hat Hmx Hmax Hfuel.
  induction Hat as [|r rs Hr Hrs IH]; intros st Hp; [reflexivity|].
  simpl for_range.
  destruct (Email_body_returns fuel alert a r st Hp Hr Hmx Hmax Hfuel)
    as (domain & evs & _ & Hevs).
  rewrite (bind_normal _ _ _ _ _ Hevs). now apply IH.
Qed.

(** Whatever happens to the others, every recipient gets its MX lookup. *)
Lemma Email_Alert_looks_up_all fuel alert a recipients :
  Forall (fun r => contains_byte r at_sign = true) recipients ->
  mx_never_empty W ->
  (EmailHandler.MaxRetries handler < GoInt.max_int)%Z ->
  (allowed (EmailHandler.MaxRetries handler) < fuel)%nat ->
  forall st, heap st alert = Some a ->
    exists evs,
      for_range recipients (EmailHandler.body fuel W handler alert) st = (Normal tt, ext st evs)
      /\ forall q, In q recipients ->
           exists domain, nth_error (Split q at_sign) 1 = Some domain
                          /\ In (ELookupMX domain) evs.
Proof.
  intros Hat Hmx Hmax Hfuel.
  induction Hat as [|r rs Hr Hrs IH]; intros st Hp.
  - exists []. simpl. unfold ret. rewrite ext_nil. split; [reflexivity | intros q []].
  - simpl for_range.
    destruct (Email_body_returns fuel alert a r st Hp Hr Hmx Hmax Hfuel)
      as (domain & evs & Hd & Hevs).
    rewrite (bind_normal _ _ _ _ _ Hevs).
    destruct (IH (ext st (ELookupMX domain :: evs)) Hp) as (evs' & Hrun & Hall).
    exists ((ELookupMX domain :: evs) ++ evs'). rewrite Hrun, ext_ext. split; [reflexivity|].
    intros q [<-|Hq].
    + exists domain. split; [exact Hd | now left].
    + destruct (Hall q Hq) as (dq & Hdq & Hin). exists dq. split; [exact Hdq|].
      apply in_or_app. now right.
Qed.

(** The call on a list of recipients, once those before [r] are done. *)
Lemma Email_Alert_at fuel datacenter alert pre r post st st1 :
  EmailHandler.Recipients handler = pre ++ r :: post ->
  for_range pre (EmailHandler.body fuel W handler alert) st = (Normal tt, st1) ->
  EmailHandler.Alert fuel W handler datacenter alert st
  = bind (EmailHandler.body fuel W handler alert r)
      (fun _ => for_range post (EmailHandler.body fuel W handler alert)) st1.
Proof.
  intros Hr Hpre. unfold EmailHandler.Alert. rewrite Hr, for_range_app.
  now rewrite (bind_normal _ _ _ _ _ Hpre).
Qed.

End Email.

Lemma sends_app a b : sends (a ++ b) = sends a ++ sends b.
Proof.
  induction a as [|e a IH]; simpl; [reflexivity|].
  destruct e; simpl; now rewrite ?IH.
Qed.

(** C5. In a call of the e-mail handler, once the recipients before [r]
    are done: if the MX lookup for the domain of [r] fails, the error is
    logged, nothing is sent for [r] and the call goes on with the
    recipients after [r]; if the lookup succeeds and every allowed
    delivery fails, the call goes on with the recipients after [r] all the
    same.  And when every recipient has an at sign, whatever fails, the
    call returns having made the MX lookup of every recipient. *)
Theorem recipients_are_isolated :
  forall fuel W (h : EmailHandler.t) datacenter p a,
    let body := EmailHandler.body fuel W h p in
    (forall pre r post st st1 domain,
        EmailHandler.Recipients h = pre ++ r :: post ->
        for_range pre body st = (Normal tt, st1) ->
        nth_error (Split r at_sign) 1 = Some domain ->
        (forall records e,
            LookupMX W (count is_lookup (trace st1)) domain = (records, Some e) ->
            let skipped :=
              [ELookupMX domain;
               ELog StdLogger ErrorLevel ("Error looking up email server: " +++ e)] in
            sends skipped = []
            /\ Alert fuel W h datacenter p st = for_range post body (ext st1 skipped))
        /\ (forall mx records,
              heap st p = Some a ->
              LookupMX W (count is_lookup (trace st1)) domain = (mx :: records, None) ->
              (EmailHandler.MaxRetries h < GoInt.max_int)%Z ->
              (allowed (EmailHandler.MaxRetries h) < fuel)%nat ->
              all_fail (fun j => DialAndSend W (count is_send (trace st1) + j)
                                   (mail_dialer mx) (alert_mail r a))
                (allowed (EmailHandler.MaxRetries h)) ->
              exists errs,
                List.length errs = allowed (EmailHandler.MaxRetries h)
                /\ Alert fuel W h datacenter p st
                   = for_range post body
                       (ext st1 (ELookupMX domain
                                 :: flat_map (email_failure (mail_dialer mx) (alert_mail r a))
                                      errs))))
    /\ (forall st,
          heap st p = Some a ->
          Forall (fun r => contains_byte r at_sign = true) (EmailHandler.Recipients h) ->
          mx_never_empty W ->
          (EmailHandler.MaxRetries h < GoInt.max_int)%Z ->
          (allowed (EmailHandler.MaxRetries h) < fuel)%nat ->
          fst (Alert fuel W h datacenter p st) = Normal tt
          /\ forall q, In q (EmailHandler.Recipients h) ->
               exists domain,
                 nth_error (Split q at_sign) 1 = Some domain
                 /\ In (ELookupMX domain) (issued (Alert fuel W h datacenter p) st)).
Proof.
  intros fuel W h dc p a body. split.
  - intros pre r post st st1 domain Hr Hpre Hd. simpl Alert.
    rewrite (Email_Alert_at W h fuel dc p pre r post st st1 Hr Hpre). split.
    + intros records e Hl skipped. split; [reflexivity|].
      now rewrite (bind_normal _ _ _ _ _
                     (Email_body_lookup_failure W h fuel p r domain records e st1 Hd Hl)).
    + intros mx records Hp0 Hl Hmax Hfuel Hall.
      assert (Hp : heap st1 p = Some a).
      { destruct (frame_for_range pre body (frame_Email_body fuel W h p) st) as [evs Hevs].
        rewrite Hpre in Hevs. simpl in Hevs. now subst st1. }
      rewrite (bind_ext _ _ (fun _ => for_range post body)) by reflexivity.
      unfold bind. rewrite (Email_body_lookup_success W h fuel p a r domain mx records st1 Hp Hd Hl).
      destruct (Email_retry_run W h (mail_dialer mx) (alert_mail r a) Hmax
                  (allowed (EmailHandler.MaxRetries h)) fuel 0
                  (ext st1 [ELookupMX domain]) ltac:(lia)
                  ltac:(unfold allowed; f_equal; lia) Hfuel)
        as (errs & Hlen & _ & Hok & Hrun).
      rewrite count_ext in Hok. change (count is_send [ELookupMX domain]) with 0%nat in Hok.
      rewrite Nat.add_0_r in Hok.
      assert (Hn : List.length errs = allowed (EmailHandler.MaxRetries h)).
      { destruct (Nat.eq_dec (List.length errs) (allowed (EmailHandler.MaxRetries h)))
          as [Heq|Hne]; [exact Heq|].
        assert (Hlt : (List.length errs < allowed (EmailHandler.MaxRetries h))%nat) by lia.
        exfalso. exact (Hall _ Hlt (Hok Hlt)). }
      exists errs. split; [exact Hn|].
      rewrite Hrun, ext_ext. unfold email_attempts.
      rewrite Hn, Nat.ltb_irrefl, app_nil_r. reflexivity.
  - intros st Hp Hat Hmx Hmax Hfuel. simpl Alert. unfold EmailHandler.Alert.
    destruct (Email_Alert_looks_up_all W h fuel p a _ Hat Hmx Hmax Hfuel st Hp)
      as (evs & Hrun & Hall).
    fold body in Hrun. fold body.
    rewrite (issued_ext _ _ _ _ Hrun), Hrun. split; [reflexivity | exact Hall].
Qed.

Lemma recipients_are_isolated_witness :
  (Alert 4 Sample.down (EmailHandler.mk ["a@example.com"; "b@example.org"] 2) "us-east" 1
     Sample.st0
   = for_range ["b@example.org"]
       (EmailHandler.body 4 Sample.down
          (EmailHandler.mk ["a@example.com"; "b@example.org"] 2) 1)
       (ext Sample.st0
          [ELookupMX "example.com";
           ELog StdLogger ErrorLevel "Error looking up email server: no such host"]))
  /\ (exists errs,
        List.length errs = 3%nat
        /\ Alert 4 Sample.refusing (EmailHandler.mk ["a@example.com"; "b@example.org"] 2)
             "us-east" 1 Sample.st0
           = for_range ["b@example.org"]
               (EmailHandler.body 4 Sample.refusing
                  (EmailHandler.mk ["a@example.com"; "b@example.org"] 2) 1)
               (ext Sample.st0
                  (ELookupMX "example.com"
                   :: flat_map (email_failure (mail_dialer (mkMX "mx.example.com" 10))
                                  (alert_mail "a@example.com" Sample.web)) errs)))
  /\ In (ELookupMX "example.org")
       (issued (Alert 4 Sample.down (EmailHandler.mk ["a@example.com"; "b@example.org"] 2)
                  "us-east" 1) Sample.st0).
Proof.
  split; [|split].
  - destruct (recipients_are_isolated 4 Sample.down
                (EmailHandler.mk ["a@example.com"; "b@example.org"] 2) "us-east" 1 Sample.web)
      as [Hone _].
    destruct (Hone [] "a@example.com" ["b@example.org"] Sample.st0 Sample.st0 "example.com"
                eq_refl eq_refl eq_refl) as [Hskip _].
    exact (proj2 (Hskip [] "no such host" eq_refl)).
  - destruct (recipients_are_isolated 4 Sample.refusing
                (EmailHandler.mk ["a@example.com"; "b@example.org"] 2) "us-east" 1 Sample.web)
      as [Hone _].
    destruct (Hone [] "a@example.com" ["b@example.org"] Sample.st0 Sample.st0 "example.com"
                eq_refl eq_refl eq_refl) as [_ Hexhaust].
    refine (Hexhaust (mkMX "mx.example.com" 10) [] eq_refl eq_refl _ _ _).
    + reflexivity.
    + vm_compute; lia.
    + intros j _; discriminate.
  - destruct (recipients_are_isolated 4 Sample.down
                (EmailHandler.mk ["a@example.com"; "b@example.org"] 2) "us-east" 1 Sample.web)
      as [_ Hall].
    destruct (Hall Sample.st0 eq_refl) as [_ Hq].
    + repeat constructor.
    + intros n name records H; discriminate.
    + reflexivity.
    + vm_compute; lia.
    + destruct (Hq "b@example.org" (or_intror (or_introl eq_refl))) as (domain & Hd & Hin).
      injection Hd as <-. exact Hin.
Defined.

(** C7. In a call of the e-mail handler, once the recipients before [r]
    are done: if the MX lookup for the domain of [r] succeeds with a
    record, the deliveries made for [r] (at least one, when retries are
    not negative) all carry one message, from the fixed sender to [r],
    with the alert's message as subject and its details as plain-text
    body, and all go to the host of the first record on port 25 with no
    user name and no password. *)
Theorem mail_is_composed_for_recipient :
  forall fuel W (h : EmailHandler.t) datacenter p a pre r post st st1 domain mx records,
    heap st p = Some a ->
    EmailHandler.Recipients h = pre ++ r :: post ->
    for_range pre (EmailHandler.body fuel W h p) st = (Normal tt, st1) ->
    nth_error (Split r at_sign) 1 = Some domain ->
    LookupMX W (count is_lookup (trace st1)) domain = (mx :: records, None) ->
    (0 <= EmailHandler.MaxRetries h)%Z ->
    (0 < fuel)%nat ->
    exists m k later,
      get_field "From" (header m)
        = Some (AddressHeader "consul-alerting@noreply.com" "Consul Alerting")
      /\ get_field "To" (header m) = Some (AddressHeader r "")
      /\ get_field "Subject" (header m) = Some (TextHeader [Message a])
      /\ parts m = [("text/plain", Details a)]
      /\ (0 < k)%nat
      /\ sends (issued (Alert fuel W h datacenter p) st)
         = sends (issued (for_range pre (EmailHandler.body fuel W h p)) st)
           ++ repeat ({| dHost := Host mx; dPort := 25; dUsername := ""; dPassword := "" |}, m) k
           ++ later.
Proof.
  intros fuel W h dc p a pre r post st st1 domain mx records Hp0 Hr Hpre Hd Hl Hmax Hfuel.
  destruct (frame_for_range pre _ (frame_Email_body fuel W h p) st) as [evs0 Hevs0].
  rewrite Hpre in Hevs0; simpl in Hevs0; subst st1.
  assert (Hp : heap (ext st evs0) p = Some a) by exact Hp0.
  exists (alert_mail r a).
  destruct (Email_retry_sends W h (mail_dialer mx) (alert_mail r a) fuel 0
              (ext (ext st evs0) [ELookupMX domain])) as (res & [k evs] & Hrun & Hs & Hk).
  simpl in Hrun, Hs, Hk. exists k.
  assert (Hbody : EmailHandler.body fuel W h p r (ext st evs0)
                  = (res, ext st (evs0 ++ ELookupMX domain :: evs))).
  { rewrite (Email_body_lookup_success W h fuel p a r domain mx records _ Hp Hd Hl).
    rewrite Hrun, !ext_ext. reflexivity. }
  assert (Hall : exists evs' res',
             EmailHandler.Alert fuel W h dc p st
             = (res', ext st (evs0 ++ (ELookupMX domain :: evs) ++ evs'))).
  { rewrite (Email_Alert_at W h fuel dc p pre r post st _ Hr Hpre).
    unfold bind. rewrite Hbody.
    destruct res as [[]| | |].
    - destruct (frame_for_range post _ (frame_Email_body fuel W h p)
                  (ext st (evs0 ++ ELookupMX domain :: evs))) as [evs' Hevs'].
      destruct (for_range post _ _) as [res' st'] eqn:Hpost. simpl in Hevs'. subst st'.
      exists evs', res'. now rewrite ext_ext, <- app_assoc.
    - exists [], (Panicked v). now rewrite app_nil_r.
    - exists [], (Exited code). now rewrite app_nil_r.
    - exists [], OutOfFuel. now rewrite app_nil_r. }
  destruct Hall as (evs' & res' & Hall).
  exists (sends evs').
  repeat split; try (apply Hk; lia).
  simpl Alert. rewrite (issued_ext _ _ _ _ Hall), (issued_ext _ _ _ _ Hpre).
  rewrite !sends_app. simpl sends. now rewrite Hs.
Qed.

Lemma mail_is_composed_for_recipient_witness :
  exists m k later,
    get_field "From" (header m)
      = Some (AddressHeader "consul-alerting@noreply.com" "Consul Alerting")
    /\ get_field "To" (header m) = Some (AddressHeader "a@example.com" "")
    /\ get_field "Subject" (header m) = Some (TextHeader ["web unhealthy"])
    /\ parts m = [("text/plain", Details Sample.web)]
    /\ (0 < k)%nat
    /\ sends (issued (Alert 1 Sample.calm (EmailHandler.mk ["a@example.com"] 0) "us-east" 1)
                Sample.st0)
       = sends (issued (for_range []
                          (EmailHandler.body 1 Sample.calm
                             (EmailHandler.mk ["a@example.com"] 0) 1)) Sample.st0)
         ++ repeat ({| dHost := "mx.example.com"; dPort := 25;
                       dUsername := ""; dPassword := "" |}, m) k
         ++ later.
Proof.
  exact (mail_is_composed_for_recipient 1 Sample.calm (EmailHandler.mk ["a@example.com"] 0)
           "us-east" 1 Sample.web [] "a@example.com" [] Sample.st0 Sample.st0 "example.com"
           (mkMX "mx.example.com" 10) [] eq_refl eq_refl eq_refl eq_refl eq_refl
           ltac:(simpl; lia) ltac:(lia)).
Defined.

(** C10. The domain of a recipient is element 1 of the recipient split at
    the at sign, and the mail server is element 0 of the MX records.  A
    recipient with an at sign has an element 1, a list of records that is
    not empty has an element 0, and when every recipient has an at sign
    and no successful lookup comes without a record the call does not
    panic.  A recipient without an at sign splits into one piece, so that
    when its turn comes the call panics on the index. *)
Theorem recipient_domain_is_indexed :
  forall fuel W (h : EmailHandler.t) datacenter p a st,
    heap st p = Some a ->
    (forall r, contains_byte r at_sign = true ->
       exists domain, nth_error (Split r at_sign) 1 = Some domain)
    /\ (forall records : list MX, records <> [] -> exists mx, nth_error records 0 = Some mx)
    /\ (Forall (fun r => contains_byte r at_sign = true) (EmailHandler.Recipients h) ->
        mx_never_empty W ->
        raises (fst (Alert fuel W h datacenter p st)) = false)
    /\ (forall pre r post st1,
          EmailHandler.Recipients h = pre ++ r :: post ->
          for_range pre (EmailHandler.body fuel W h p) st = (Normal tt, st1) ->
          contains_byte r at_sign = false ->
          Split r at_sign = [r]
          /\ Alert fuel W h datacenter p st
             = (Panicked "runtime error: index out of range [1] with length 1", st1)).
Proof.
  intros fuel W h dc p a st Hp. repeat split.
  - intros r Hr. destruct (Split_with_separator _ _ Hr) as (x & y & rest & Hs).
    exists y. now rewrite Hs.
  - intros [|mx records] H; [contradiction | now exists mx].
  - intros Hat Hmx. exact (Email_Alert_safe W h fuel p a _ Hat Hmx st Hp).
  - now apply Split_without_separator.
  - simpl Alert. rewrite (Email_Alert_at W h fuel dc p pre r post st st1 H H0).
    unfold bind. now rewrite Email_body_no_at_sign.
Qed.

Lemma recipient_domain_is_indexed_witness :
  (exists domain, nth_error (Split "a@example.com" at_sign) 1 = Some domain)
  /\ Alert 3 Sample.down (EmailHandler.mk ["a@example.com"; "root"; "c@example.org"] 1)
       "us-east" 1 Sample.st0
     = (Panicked "runtime error: index out of range [1] with length 1",
        ext Sample.st0
          [ELookupMX "example.com";
           ELog StdLogger ErrorLevel "Error looking up email server: no such host"]).
Proof.
  destruct (recipient_domain_is_indexed 3 Sample.down
              (EmailHandler.mk ["a@example.com"; "root"; "c@example.org"] 1) "us-east" 1
              Sample.web Sample.st0 eq_refl) as (Hat & _ & _ & Hbad).
  split.
  - exact (Hat "a@example.com" eq_refl).
  - exact (proj2 (Hbad ["a@example.com"] "root" ["c@example.org"] _ eq_refl eq_refl eq_refl)).
Defined.

(** ** The Slack handler *)

Lemma count_snoc f tr e : count f (tr ++ [e]) = (count f tr + if f e then 1 else 0)%nat.
Proof. rewrite count_app. unfold count at 2. simpl. now destruct (f e). Qed.

Lemma append_assoc (x y z : string) : x +++ y +++ z = x +++ (y +++ z).
Proof. induction x as [|c x IH]; simpl; [reflexivity | now rewrite <- IH]. Qed.

Lemma posts_app a b : posts (a ++ b) = posts a ++ posts b.
Proof.
  induction a as [|e a IH]; simpl; [reflexivity|].
  destruct e; simpl; now rewrite ?IH.
Qed.

Section Slack.

Variables (W : World) (handler : SlackHandler.t) (text : string).

Lemma Slack_retry_failure fuel t st e :
  (t <= SlackHandler.MaxRetries handler)%Z ->
  slack_answer W handler text st = Some e ->
  SlackHandler.retry (S fuel) W handler text t st
  = SlackHandler.retry fuel W handler text (GoInt.incr t)
      (ext st (slack_failure handler text (Now_Unix W (count is_now (trace st))) e)).
Proof.
  unfold slack_answer. intros Ht He. simpl SlackHandler.retry.
  apply Z.leb_le in Ht; rewrite Ht.
  unfold bind, time_Now_Unix, slack_PostWebhook, fmt_Println, log_Error, Logger_Error,
    time_Sleep, emit.
  cbn [heap trace]. rewrite count_snoc. cbn [is_post]. rewrite Nat.add_0_r.
  fold (slack_payload text (Now_Unix W (count is_now (trace st)))).
  rewrite He. cbn [heap trace].
  unfold ext, slack_failure. rewrite <- !app_assoc. reflexivity.
Qed.

Lemma Slack_retry_success fuel t st :
  (t <= SlackHandler.MaxRetries handler)%Z ->
  slack_answer W handler text st = None ->
  SlackHandler.retry (S fuel) W handler text t st
  = (Normal tt,
     ext st [ENow; EPostWebhook (SlackHandler.Token handler)
                     (slack_payload text (Now_Unix W (count is_now (trace st))))]).
Proof.
  unfold slack_answer. intros Ht He. simpl SlackHandler.retry.
  apply Z.leb_le in Ht; rewrite Ht.
  unfold bind, time_Now_Unix, slack_PostWebhook, ret.
  cbn [heap trace]. rewrite count_snoc. cbn [is_post]. rewrite Nat.add_0_r.
  fold (slack_payload text (Now_Unix W (count is_now (trace st)))).
  rewrite He. unfold ext. rewrite <- !app_assoc. reflexivity.
Qed.

Lemma Slack_retry_done fuel t st :
  (SlackHandler.MaxRetries handler < t)%Z ->
  SlackHandler.retry (S fuel) W handler text t st = (Normal tt, st).
Proof.
  intros Ht. simpl SlackHandler.retry.
  apply Z.leb_gt in Ht; rewrite Ht. reflexivity.
Qed.

Lemma count_post_failure now e : count is_post (slack_failure handler text now e) = 1%nat.
Proof. reflexivity. Qed.

Lemma count_now_failure now e : count is_now (slack_failure handler text now e) = 1%nat.
Proof. reflexivity. Qed.

(** With a budget below the greatest [int] the loop returns, after the
    failures [errs] and one success if the budget was not used up. *)
Lemma Slack_retry_run :
  (SlackHandler.MaxRetries handler < GoInt.max_int)%Z ->
  forall n fuel t st,
    (0 <= t)%Z ->
    n = Z.to_nat (SlackHandler.MaxRetries handler + 1 - t) ->
    (n < fuel)%nat ->
    let o := fun j =>
      PostWebhook W (count is_post (trace st) + j) (SlackHandler.Token handler)
        (slack_payload text (Now_Unix W (count is_now (trace st) + j))) in
    exists errs,
      (List.length errs <= n)%nat
      /\ errors_of o errs
      /\ ((List.length errs < n)%nat -> o (List.length errs) = None)
      /\ SlackHandler.retry fuel W handler text t st
         = (Normal tt,
            ext st (slack_attempts W handler text (count is_now (trace st)) errs
                      (List.length errs <? n)%nat)).
Proof.
  intros Hmax. induction n as [|n IH]; intros fuel t st Ht Hn Hfuel o;
    (destruct fuel as [|fuel]; [lia|]).
  - exists []. repeat split.
    + simpl; lia.
    + intros j e Hj; now destruct j.
    + simpl; lia.
    + rewrite Slack_retry_done by lia. unfold slack_attempts; simpl. now rewrite ext_nil.
  - destruct (slack_answer W handler text st) as [e|] eqn:He.
    + destruct (IH fuel (GoInt.incr t)
                  (ext st (slack_failure handler text (Now_Unix W (count is_now (trace st))) e)))
        as (errs & Hlen & Herrs & Hok & Hrun).
      * rewrite incr_small; unfold GoInt.min_int, GoInt.bits;
          change (2 ^ (64 - 1))%Z with 9223372036854775808%Z; lia.
      * rewrite incr_small; unfold GoInt.min_int, GoInt.bits;
          change (2 ^ (64 - 1))%Z with 9223372036854775808%Z; lia.
      * lia.
      * rewrite !count_ext, count_post_failure, count_now_failure in Herrs, Hok.
        rewrite count_ext, count_now_failure in Hrun.
        exists (e :: errs). repeat split.
        -- simpl; lia.
        -- apply errors_of_cons.
           ++ subst o. cbv beta. rewrite !Nat.add_0_r. exact He.
           ++ intros j e' Hj. rewrite <- (Herrs j e' Hj). subst o. cbv beta.
              replace (count is_post (trace st) + S j)%nat
                with (count is_post (trace st) + 1 + j)%nat by lia.
              replace (count is_now (trace st) + S j)%nat
                with (count is_now (trace st) + 1 + j)%nat by lia.
              reflexivity.
        -- simpl List.length. intros Hlt. rewrite <- Hok by lia. subst o. cbv beta.
           replace (count is_post (trace st) + S (List.length errs))%nat
             with (count is_post (trace st) + 1 + List.length errs)%nat by lia.
           replace (count is_now (trace st) + S (List.length errs))%nat
             with (count is_now (trace st) + 1 + List.length errs)%nat by lia.
           reflexivity.
        -- rewrite (Slack_retry_failure fuel t st e) by (lia || exact He).
           rewrite Hrun, ext_ext.
           unfold slack_attempts. simpl List.length. simpl slack_failures.
           change (S (List.length errs) <? S n)%nat with (List.length errs <? n)%nat.
           replace (count is_now (trace st) + S (List.length errs))%nat
             with (count is_now (trace st) + 1 + List.length errs)%nat by lia.
           replace (S (count is_now (trace st))) with (count is_now (trace st) + 1)%nat by lia.
           now rewrite <- ?app_assoc.
    + exists []. repeat split.
      * simpl; lia.
      * intros j e Hj; now destruct j.
      * intros _. subst o. cbv beta. simpl List.length. rewrite !Nat.add_0_r. exact He.
      * rewrite Slack_retry_success by (lia || exact He).
        unfold slack_attempts. simpl. now rewrite Nat.add_0_r.
Qed.

(** The loop never raises, whatever the fuel and the budget. *)
Lemma Slack_retry_safe fuel :
  forall t st, raises (fst (SlackHandler.retry fuel W handler text t st)) = false.
Proof.
  induction fuel as [|fuel IH]; intros t st; [reflexivity|].
  destruct (Z.leb_spec t (SlackHandler.MaxRetries handler)) as [Ht|Ht].
  - destruct (slack_answer W handler text st) as [e|] eqn:He.
    + rewrite (Slack_retry_failure _ _ _ e Ht He). apply IH.
    + now rewrite (Slack_retry_success _ _ _ Ht He).
  - now rewrite Slack_retry_done.
Qed.

(** When every post fails and the budget is the greatest [int], [tries]
    never passes it and the loop never ends: with [fuel] rounds of fuel it
    makes [fuel] posts and is cut. *)
Lemma Slack_retry_endless fuel :
  SlackHandler.MaxRetries handler = GoInt.max_int ->
  (forall n url msg, PostWebhook W n url msg <> None) ->
  forall t st,
    GoInt.in_range t ->
    exists evs,
      SlackHandler.retry fuel W handler text t st = (OutOfFuel, ext st evs)
      /\ count is_post evs = fuel.
Proof.
  intros Hmax Hfail. induction fuel as [|fuel IH]; intros t st Ht.
  - exists []. simpl. unfold out_of_fuel. now rewrite ext_nil.
  - destruct (slack_answer W handler text st) as [e|] eqn:He.
    + assert (Hle : (t <= SlackHandler.MaxRetries handler)%Z) by (rewrite Hmax; apply Ht).
      rewrite (Slack_retry_failure fuel t st e Hle He).
      destruct (IH (GoInt.incr t)
                  (ext st (slack_failure handler text (Now_Unix W (count is_now (trace st))) e))
                  (incr_in_range t)) as (evs & Hrun & Hcount).
      eexists. rewrite Hrun, ext_ext. split; [reflexivity|].
      now rewrite count_app, count_post_failure, Hcount.
    + now apply Hfail in He.
Qed.

End Slack.

Lemma Slack_Alert_run fuel W handler datacenter alert a st :
  heap st alert = Some a ->
  SlackHandler.Alert fuel W handler datacenter alert st
  = SlackHandler.retry fuel W handler (slack_text a) 0 st.
Proof.
  intros Hp. unfold SlackHandler.Alert.
  rewrite (bind_normal _ _ _ _ _ (field_ok Message _ _ _ Hp)).
  now rewrite (bind_normal _ _ _ _ _ (field_ok Details _ _ _ Hp)).
Qed.

(** ** Counting in the traces of the retry loops *)

Lemma sends_of_email_attempts d m errs delivered :
  count is_send (email_attempts d m errs delivered)
  = (List.length errs + if delivered then 1 else 0)%nat.
Proof.
  unfold email_attempts. rewrite count_app. f_equal.
  - induction errs as [|e errs IH]; [reflexivity|].
    unfold count in *. simpl. now rewrite IH.
  - now destruct delivered.
Qed.

Lemma sleeps_of_email_attempts d m errs delivered :
  count is_sleep (email_attempts d m errs delivered) = List.length errs.
Proof.
  unfold email_attempts. rewrite count_app.
  replace (count is_sleep (if delivered then [EDialAndSend d m] else [])) with 0%nat
    by now destruct delivered.
  rewrite Nat.add_0_r.
  induction errs as [|e errs IH]; [reflexivity|].
  unfold count in *. simpl. now rewrite IH.
Qed.

Lemma posts_of_slack_attempts W h text c errs delivered :
  count is_post (slack_attempts W h text c errs delivered)
  = (List.length errs + if delivered then 1 else 0)%nat.
Proof.
  unfold slack_attempts. rewrite count_app. f_equal.
  - revert c; induction errs as [|e errs IH]; intros c; [reflexivity|].
    unfold count in *. simpl. now rewrite IH.
  - now destruct delivered.
Qed.

Lemma sleeps_of_slack_attempts W h text c errs delivered :
  count is_sleep (slack_attempts W h text c errs delivered) = List.length errs.
Proof.
  unfold slack_attempts. rewrite count_app.
  replace (count is_sleep
             (if delivered
              then [ENow; EPostWebhook (SlackHandler.Token h)
                            (slack_payload text (Now_Unix W (c + List.length errs)))]
              else [])) with 0%nat by now destruct delivered.
  rewrite Nat.add_0_r.
  revert c; induction errs as [|e errs IH]; intros c; [reflexivity|].
  unfold count in *. simpl. now rewrite IH.
Qed.

(** C3, as the code has it: for [0 <= MaxRetries] below the greatest
    [int].  The e-mail handler, for a recipient whose MX lookup succeeded
    with a record, and the Slack handler, for a call, return after a
    number of attempts that is the least of [MaxRetries + 1] and of the
    number of attempts until the first success: [MaxRetries + 1] when all
    of them fail.  Every failed attempt is followed by its two log lines
    and a sleep of five seconds, and a success ends the loop. *)
Theorem retry_attempts_are_bounded :
  (forall fuel W (h : EmailHandler.t) p a r st domain mx records,
      heap st p = Some a ->
      nth_error (Split r at_sign) 1 = Some domain ->
      LookupMX W (count is_lookup (trace st)) domain = (mx :: records, None) ->
      (0 <= EmailHandler.MaxRetries h < GoInt.max_int)%Z ->
      (Z.to_nat (EmailHandler.MaxRetries h + 1) < fuel)%nat ->
      let n := Z.to_nat (EmailHandler.MaxRetries h + 1) in
      let d := mail_dialer mx in
      let m := alert_mail r a in
      let o := fun j => DialAndSend W (count is_send (trace st) + j) d m in
      let run := EmailHandler.body fuel W h p r in
      exists errs,
        errors_of o errs
        /\ run st
           = (Normal tt,
              ext st (ELookupMX domain
                      :: flat_map
                           (fun e =>
                              [EDialAndSend d m;
                               ELog StdLogger ErrorLevel ("Error sending alert email: " +++ e);
                               ELog StdLogger ErrorLevel "Retrying email in 5s...";
                               ESleep 5000000000]) errs
                      ++ (if (List.length errs <? n)%nat then [EDialAndSend d m] else [])))
        /\ count is_send (issued run st)
           = (List.length errs + if (List.length errs <? n)%nat then 1 else 0)%nat
        /\ count is_sleep (issued run st) = List.length errs
        /\ (forall k, first_success o k -> count is_send (issued run st) = Nat.min (k + 1) n)
        /\ (all_fail o n -> count is_send (issued run st) = n))
  /\ (forall fuel W (h : SlackHandler.t) datacenter p a st,
        heap st p = Some a ->
        (0 <= SlackHandler.MaxRetries h < GoInt.max_int)%Z ->
        (Z.to_nat (SlackHandler.MaxRetries h + 1) < fuel)%nat ->
        let n := Z.to_nat (SlackHandler.MaxRetries h + 1) in
        let c := count is_now (trace st) in
        let o := fun j =>
          PostWebhook W (count is_post (trace st) + j) (SlackHandler.Token h)
            (slack_payload (slack_text a) (Now_Unix W (c + j))) in
        let run := Alert fuel W h datacenter p in
        exists errs,
          errors_of o errs
          /\ run st
             = (Normal tt,
                ext st (slack_attempts W h (slack_text a) c errs (List.length errs <? n)%nat))
          /\ count is_post (issued run st)
             = (List.length errs + if (List.length errs <? n)%nat then 1 else 0)%nat
          /\ count is_sleep (issued run st) = List.length errs
          /\ (forall k, first_success o k -> count is_post (issued run st) = Nat.min (k + 1) n)
          /\ (all_fail o n -> count is_post (issued run st) = n)).
Proof.
  split.
  - intros fuel W h p a r st domain mx records Hp Hd Hl Hmax Hfuel n d m o run.
    destruct (Email_retry_run W h d m (proj2 Hmax) n fuel 0 (ext st [ELookupMX domain])
                ltac:(lia) ltac:(subst n; f_equal; lia) Hfuel)
      as (errs & Hlen & Herrs & Hok & Hrun).
    rewrite count_ext in Herrs, Hok.
    change (count is_send [ELookupMX domain]) with 0%nat in Herrs, Hok.
    rewrite Nat.add_0_r in Herrs, Hok.
    assert (Hbody : run st
                    = (Normal tt,
                       ext st (ELookupMX domain
                               :: email_attempts d m errs (List.length errs <? n)%nat))).
    { subst run. rewrite (Email_body_lookup_success W h fuel p a r domain mx records st Hp Hd Hl).
      fold d m. rewrite Hrun, ext_ext. reflexivity. }
    assert (Hsends : count is_send (issued run st)
                     = (List.length errs + if (List.length errs <? n)%nat then 1 else 0)%nat).
    { rewrite (issued_ext _ _ _ _ Hbody).
      change (ELookupMX domain :: email_attempts d m errs (List.length errs <? n)%nat)
        with ([ELookupMX domain] ++ email_attempts d m errs (List.length errs <? n)%nat).
      rewrite count_app, sends_of_email_attempts. reflexivity. }
    destruct (attempts_min o n (List.length errs) Hlen (errors_all_fail o errs Herrs) Hok)
      as [Hmin Hall].
    exists errs. split; [exact Herrs|]. split; [exact Hbody|]. split; [exact Hsends|].
    split; [|split].
    + rewrite (issued_ext _ _ _ _ Hbody).
      change (ELookupMX domain :: email_attempts d m errs (List.length errs <? n)%nat)
        with ([ELookupMX domain] ++ email_attempts d m errs (List.length errs <? n)%nat).
      rewrite count_app, sleeps_of_email_attempts. reflexivity.
    + intros k Hk. rewrite Hsends. now apply Hmin.
    + intros Hfail. rewrite Hsends. now apply Hall.
  - intros fuel W h dc p a st Hp Hmax Hfuel n c o run.
    destruct (Slack_retry_run W h (slack_text a) (proj2 Hmax) n fuel 0 st
                ltac:(lia) ltac:(subst n; f_equal; lia) Hfuel)
      as (errs & Hlen & Herrs & Hok & Hrun).
    assert (Hbody : run st
                    = (Normal tt,
                       ext st (slack_attempts W h (slack_text a) c errs
                                 (List.length errs <? n)%nat))).
    { subst run. simpl Alert. now rewrite (Slack_Alert_run fuel W h dc p a st Hp). }
    assert (Hposts : count is_post (issued run st)
                     = (List.length errs + if (List.length errs <? n)%nat then 1 else 0)%nat).
    { now rewrite (issued_ext _ _ _ _ Hbody), posts_of_slack_attempts. }
    destruct (attempts_min o n (List.length errs) Hlen (errors_all_fail o errs Herrs) Hok)
      as [Hmin Hall].
    exists errs. split; [exact Herrs|]. split; [exact Hbody|]. split; [exact Hposts|].
    split; [|split].
    + now rewrite (issued_ext _ _ _ _ Hbody), sleeps_of_slack_attempts.
    + intros k Hk. rewrite Hposts. now apply Hmin.
    + intros Hfail. rewrite Hposts. now apply Hall.
Qed.

Lemma retry_attempts_are_bounded_witness :
  count is_send
    (issued (EmailHandler.body 4 Sample.refusing (EmailHandler.mk ["a@example.com"] 2) 1
               "a@example.com") Sample.st0) = 3%nat
  /\ count is_post
       (issued (Alert 3 Sample.calm (SlackHandler.mk "token" "alerts" 1) "us-east" 1)
          Sample.st0) = Nat.min (0 + 1) 2.
Proof.
  destruct retry_attempts_are_bounded as [Hemail Hslack]. split.
  - assert (Hbudget : (0 <= 2 < GoInt.max_int)%Z) by (split; [lia | reflexivity]).
    assert (Hfuel : (Z.to_nat (2 + 1) < 4)%nat) by (simpl; lia).
    destruct (Hemail 4 Sample.refusing (EmailHandler.mk ["a@example.com"] 2) 1 Sample.web
                "a@example.com" Sample.st0 "example.com" (mkMX "mx.example.com" 10) []
                eq_refl eq_refl eq_refl Hbudget Hfuel)
      as (errs & _ & _ & _ & _ & _ & Hall).
    apply Hall. intros j _. discriminate.
  - assert (Hbudget : (0 <= 1 < GoInt.max_int)%Z) by (split; [lia | reflexivity]).
    assert (Hfuel : (Z.to_nat (1 + 1) < 3)%nat) by (simpl; lia).
    destruct (Hslack 3 Sample.calm (SlackHandler.mk "token" "alerts" 1) "us-east" 1 Sample.web
                Sample.st0 eq_refl Hbudget Hfuel)
      as (errs & _ & _ & _ & _ & Hmin & _).
    apply Hmin. split; [reflexivity | intros j Hj; inversion Hj].
Defined.

(** C3 as stated fails at the greatest [int]: with [MaxRetries] at
    9223372036854775807 and a webhook that refuses every post, [tries]
    wraps around instead of passing [MaxRetries]; the call never returns
    and the posts go on, where the specification has it stop after
    [MaxRetries + 1] of them. *)
Lemma slack_retries_never_stop_at_max_int :
  ~ (exists fuel st',
       Alert fuel Sample.down (SlackHandler.mk "token" "alerts" 9223372036854775807)
         "us-east" 1 Sample.st0 = (Normal tt, st'))
  /\ (forall fuel,
        fst (Alert fuel Sample.down (SlackHandler.mk "token" "alerts" 9223372036854775807)
               "us-east" 1 Sample.st0) = OutOfFuel
        /\ count is_post
             (issued (Alert fuel Sample.down
                        (SlackHandler.mk "token" "alerts" 9223372036854775807) "us-east" 1)
                Sample.st0) = fuel).
Proof.
  assert (H : forall fuel, exists evs,
             Alert fuel Sample.down (SlackHandler.mk "token" "alerts" 9223372036854775807)
               "us-east" 1 Sample.st0 = (OutOfFuel, ext Sample.st0 evs)
             /\ count is_post evs = fuel).
  { intros fuel. simpl Alert.
    rewrite (Slack_Alert_run fuel Sample.down _ "us-east" 1 Sample.web Sample.st0 eq_refl).
    apply Slack_retry_endless.
    - reflexivity.
    - intros n url msg; discriminate.
    - split; discriminate. }
  split.
  - intros (fuel & st' & Hrun). destruct (H fuel) as (evs & Hcut & _).
    rewrite Hcut in Hrun. discriminate.
  - intros fuel. destruct (H fuel) as (evs & Hcut & Hcount).
    rewrite (issued_ext _ _ _ _ Hcut), Hcut. split; [reflexivity | exact Hcount].
Qed.

Section SlackPosts.

Variables (W : World) (text : string).



End SlackPosts.

(** ** All handlers *)

Lemma Console_quiet_level W h :
  escalates W h = false ->
  configured_level (ToLower W (StdoutHandler.LogLevel h)) <> Some PanicLevel
  /\ configured_level (ToLower W (StdoutHandler.LogLevel h)) <> Some FatalLevel.
Proof.
  unfold escalates, configured_level. intros H.
  apply orb_false_elim in H as [Hpanic Hfatal]. rewrite Hpanic, Hfatal.
  destruct (_ =? "error"); [split; discriminate|].
  destruct (_ =? "warn"); [split; discriminate|].
  destruct (_ =? "warning"); [split; discriminate|].
  destruct (_ =? "info"); [split; discriminate|].
  destruct (_ =? "debug"); split; discriminate.
Qed.

Lemma Console_returns W h datacenter p a st :
  heap st p = Some a ->
  escalates W h = false ->
  fst (StdoutHandler.Alert W h datacenter p st) = Normal tt.
Proof.
  intros Hp Hq. destruct (Console_quiet_level W h Hq) as [Hpanic Hfatal].
  rewrite (Console_run W h datacenter p a st Hp), emit_lines_run.
  destruct (configured_level _) as [[]|]; try reflexivity; contradiction.
Qed.

(** C4, as the code has it.  A console handler whose level is neither
    panic nor fatal, a PagerDuty handler, a Slack handler, and an e-mail
    handler whose recipients all have an at sign and whose successful MX
    lookups come with a record, never panic and never end the process,
    whatever fails outside; and with a retry budget below the greatest
    [int] the call returns to its caller. *)
Theorem configured_handlers_never_raise :
  forall W (h : Handler) datacenter p a st,
    heap st p = Some a ->
    well_configured W h ->
    (forall fuel, raises (fst (Alert fuel W h datacenter p st)) = false)
    /\ ((retry_budget h < GoInt.max_int)%Z ->
        forall fuel, (Z.to_nat (retry_budget h + 1) < fuel)%nat ->
          fst (Alert fuel W h datacenter p st) = Normal tt).
Proof.
  intros W [h|h|h|h] dc p a st Hp Hwell; simpl in Hwell; simpl Alert; simpl retry_budget.
  - pose proof (Console_returns W h dc p a st Hp Hwell) as Hret.
    split; intros; now rewrite Hret.
  - destruct Hwell as [Hat Hmx]. split.
    + intros fuel. exact (Email_Alert_safe W h fuel p a _ Hat Hmx st Hp).
    + intros Hmax fuel Hfuel.
      exact (Email_Alert_returns W h fuel p a _ Hat Hmx Hmax Hfuel st Hp).
  - pose proof (Pagerduty_run W h dc p a st Hp) as Hrun.
    split; intros; now rewrite Hrun.
  - split.
    + intros fuel. rewrite (Slack_Alert_run fuel W h dc p a st Hp). apply Slack_retry_safe.
    + intros Hmax fuel Hfuel. rewrite (Slack_Alert_run fuel W h dc p a st Hp).
      destruct (Slack_retry_run W h (slack_text a) Hmax
                  (Z.to_nat (SlackHandler.MaxRetries h + 1)) fuel 0 st
                  ltac:(lia) ltac:(f_equal; lia) Hfuel) as (errs & _ & _ & _ & Hrun).
      now rewrite Hrun.
Qed.

Lemma configured_handlers_never_raise_witness :
  raises (fst (Alert 0 Sample.refusing
                 (Email (EmailHandler.mk ["a@example.com"; "b@example.org"] 1))
                 "us-east" 1 Sample.st0)) = false
  /\ fst (Alert 3 Sample.refusing
            (Email (EmailHandler.mk ["a@example.com"; "b@example.org"] 1))
            "us-east" 1 Sample.st0) = Normal tt.
Proof.
  assert (Hwell : well_configured Sample.refusing
                    (Email (EmailHandler.mk ["a@example.com"; "b@example.org"] 1))).
  { split.
    - repeat constructor.
    - intros n name records H. injection H as <-. discriminate. }
  destruct (configured_handlers_never_raise Sample.refusing
              (Email (EmailHandler.mk ["a@example.com"; "b@example.org"] 1))
              "us-east" 1 Sample.web Sample.st0 eq_refl Hwell) as [Hsafe Hreturns].
  split.
  - exact (Hsafe 0%nat).
  - apply Hreturns; [reflexivity | simpl; lia].
Defined.

(* ================================================================= *)
(** * Further properties of the handlers *)

Lemma lookups_app a b : lookups (a ++ b) = lookups a ++ lookups b.
Proof.
  induction a as [|e a IH]; simpl; [reflexivity|].
  destruct e; simpl; now rewrite ?IH.
Qed.

Lemma field_nil {A} (f : AlertState -> A) p st :
  heap st p = None -> field f p st = (Panicked nil_dereference, st).
Proof. intros H; unfold field, bind, deref; now rewrite H. Qed.

(** ** PagerDuty: the errors of the answer, and how far the key tells
    entities apart *)

(** X1. After its one call the PagerDuty handler logs the errors of the
    answer it got, all of them, one line each and in their order, and
    nothing else: a call answered without errors logs nothing. *)
Theorem pagerduty_logs_the_answer :
  forall fuel W (h : PagerdutyHandler.t) datacenter p a st,
    heap st p = Some a ->
    let n := count is_pd_call (trace st) in
    let key := datacenter +++ "-" +++ Service a +++ "-" +++ Tag a +++ "-" +++ Node a in
    let client := mkPDClient (PagerdutyHandler.ServiceKey h) (PagerdutyHandler.MaxRetries h) in
    let resp := if Status a =? "passing"
                then Resolve W n client key (Message a) (Details a)
                else Trigger W n client key (Message a) "" "" (Details a) in
    tl (issued (Alert fuel W h datacenter p) st)
    = map (fun err => ELog StdLogger ErrorLevel
             ("Error sending alert to PagerDuty: " +++ err +++ " (details: "
              +++ Details a +++ ", message: " +++ Message a +++ ")")) (Errors resp)
    /\ List.length (issued (Alert fuel W h datacenter p) st) = S (List.length (Errors resp)).
Proof.
  intros fuel W h dc p a st Hp n key client resp. simpl Alert.
  rewrite (issued_ext _ _ _ _ (Pagerduty_run W h dc p a st Hp)).
  split.
  - reflexivity.
  - simpl List.length. now rewrite length_map.
Qed.

Lemma pagerduty_logs_the_answer_witness :
  tl (issued (Alert 0 Sample.down (PagerdutyHandler.mk "key" 3) "us-east" 2) Sample.st0)
  = [ELog StdLogger ErrorLevel
       "Error sending alert to PagerDuty: timeout (details: , message: web healthy)"].
Proof.
  exact (proj1 (pagerduty_logs_the_answer 0 Sample.down (PagerdutyHandler.mk "key" 3)
                  "us-east" 2 Sample.web_ok Sample.st0 eq_refl)).
Defined.

Lemma dash_splits_uniquely x x' r r' :
  contains_byte x dash = false ->
  contains_byte x' dash = false ->
  x +++ String dash r = x' +++ String dash r' ->
  x = x' /\ r = r'.
Proof.
  revert x'; induction x as [|c x IH]; intros [|c' x'] Hx Hx' H; simpl in *.
  - injection H as ->. now split.
  - injection H as <- _. now rewrite Ascii.eqb_refl in Hx'.
  - injection H as -> _. now rewrite Ascii.eqb_refl in Hx.
  - injection H as <- H. apply orb_false_elim in Hx as [_ Hx].
    apply orb_false_elim in Hx' as [_ Hx'].
    destruct (IH x' Hx Hx' H) as [-> ->]. now split.
Qed.

Lemma pd_key_nested datacenter a :
  pd_key datacenter a
  = datacenter +++ String dash (Service a +++ String dash (Tag a +++ String dash (Node a))).
Proof. unfold pd_key. now rewrite !append_assoc. Qed.

(** X2. When data center, service and tag contain no dash, the incident
    key tells entities apart: two calls of the PagerDuty handler that
    send the same key are for the same data center, service, tag and
    node. *)
Theorem incident_key_tells_entities_apart :
  forall fuel W (h : PagerdutyHandler.t) datacenter p a st
         fuel' W' (h' : PagerdutyHandler.t) datacenter' p' a' st',
    heap st p = Some a ->
    heap st' p' = Some a' ->
    contains_byte datacenter dash = false ->
    contains_byte (Service a) dash = false ->
    contains_byte (Tag a) dash = false ->
    contains_byte datacenter' dash = false ->
    contains_byte (Service a') dash = false ->
    contains_byte (Tag a') dash = false ->
    incident_keys (issued (Alert fuel W h datacenter p) st)
    = incident_keys (issued (Alert fuel' W' h' datacenter' p') st') ->
    datacenter = datacenter' /\ Service a = Service a' /\ Tag a = Tag a' /\ Node a = Node a'.
Proof.
  intros fuel W h dc p a st fuel' W' h' dc' p' a' st' Hp Hp' Hd Hs Ht Hd' Hs' Ht' Hkeys.
  simpl Alert in Hkeys.
  rewrite (Pagerduty_keys W h dc p a st Hp), (Pagerduty_keys W' h' dc' p' a' st' Hp') in Hkeys.
  injection Hkeys as Hkey. rewrite !pd_key_nested in Hkey.
  destruct (dash_splits_uniquely _ _ _ _ Hd Hd' Hkey) as [Hdc Hkey1].
  destruct (dash_splits_uniquely _ _ _ _ Hs Hs' Hkey1) as [Hsv Hkey2].
  destruct (dash_splits_uniquely _ _ _ _ Ht Ht' Hkey2) as [Htg Hnode].
  now repeat split.
Qed.

Lemma incident_key_tells_entities_apart_witness :
  "dc1" = "dc1" /\ Service Sample.web = Service Sample.web_ok
  /\ Tag Sample.web = Tag Sample.web_ok /\ Node Sample.web = Node Sample.web_ok.
Proof.
  exact (incident_key_tells_entities_apart
           0 Sample.down (PagerdutyHandler.mk "key" 3) "dc1" 1 Sample.web Sample.st0
           0 Sample.calm (PagerdutyHandler.mk "other" 0) "dc1" 2 Sample.web_ok Sample.st0
           eq_refl eq_refl eq_refl eq_refl eq_refl eq_refl eq_refl eq_refl eq_refl).
Defined.

(** X3. With a dash inside a component the key no longer tells entities
    apart: service [x-y] with tag [z] and service [x] with tag [y-z], on
    the same node in the same data center, are sent under one key. *)
Theorem incident_keys_collide_on_dashes :
  forall fuel W (h : PagerdutyHandler.t) datacenter p p' a a' st x y z,
    heap st p = Some a ->
    heap st p' = Some a' ->
    Service a = x +++ "-" +++ y -> Tag a = z ->
    Service a' = x -> Tag a' = y +++ "-" +++ z ->
    Node a = Node a' ->
    incident_keys (issued (Alert fuel W h datacenter p) st)
    = incident_keys (issued (Alert fuel W h datacenter p') st).
Proof.
  intros fuel W h dc p p' a a' st x y z Hp Hp' Hs Ht Hs' Ht' Hn. simpl Alert.
  rewrite (Pagerduty_keys W h dc p a st Hp), (Pagerduty_keys W h dc p' a' st Hp').
  f_equal. unfold pd_key. rewrite Hs, Ht, Hs', Ht', Hn.
  now rewrite !append_assoc.
Qed.

Lemma incident_keys_collide_on_dashes_witness :
  incident_keys
    (issued (Alert 0 Sample.calm (PagerdutyHandler.mk "key" 0) "dc" 1) Dashed.st0)
  = incident_keys
      (issued (Alert 0 Sample.calm (PagerdutyHandler.mk "key" 0) "dc" 2) Dashed.st0).
Proof.
  exact (incident_keys_collide_on_dashes 0 Sample.calm (PagerdutyHandler.mk "key" 0) "dc" 1 2
           Dashed.api_v2 Dashed.api Dashed.st0 "api" "v2" "blue"
           eq_refl eq_refl eq_refl eq_refl eq_refl eq_refl eq_refl).
Defined.

(** ** A nil alert *)

(** X4. Called with a pointer to no alert, the console handler, the
    PagerDuty handler and the Slack handler panic on the first field they
    read, before anything is logged, called or posted. *)
Theorem nil_alert_panics_first :
  forall fuel W datacenter p st,
    heap st p = None ->
    (forall h : StdoutHandler.t,
        Alert fuel W h datacenter p st = (Panicked nil_dereference, st))
    /\ (forall h : PagerdutyHandler.t,
          Alert fuel W h datacenter p st = (Panicked nil_dereference, st))
    /\ (forall h : SlackHandler.t,
          Alert fuel W h datacenter p st = (Panicked nil_dereference, st)).
Proof.
  intros fuel W dc p st Hp. repeat split; intros h; simpl Alert.
  - unfold StdoutHandler.Alert, bind at 1. now rewrite (field_nil Message p st Hp).
  - unfold PagerdutyHandler.Alert, bind at 1. now rewrite (field_nil Service p st Hp).
  - unfold SlackHandler.Alert, bind at 1. now rewrite (field_nil Message p st Hp).
Qed.

Lemma nil_alert_panics_first_witness :
  Alert 5 Sample.calm (SlackHandler.mk "token" "alerts" 2) "us-east" 0 Sample.st0
  = (Panicked nil_dereference, Sample.st0).
Proof.
  exact (proj2 (proj2 (nil_alert_panics_first 5 Sample.calm "us-east" 0 Sample.st0 eq_refl))
           (SlackHandler.mk "token" "alerts" 2)).
Defined.

(** ** E-mail: every run, whatever the fuel, the world and the pointer *)

Section EmailAnyRun.

Variables (W : World) (handler : EmailHandler.t).

(** The retry loop looks nothing up, sleeps only after a delivery, and
    with a budget below the greatest [int] stays within it. *)
Lemma Email_retry_any d m fuel :
  forall t st, exists res evs,
    EmailHandler.retry fuel W handler d m t st = (res, ext st evs)
    /\ lookups evs = []
    /\ (count is_sleep evs <= count is_send evs)%nat
    /\ ((EmailHandler.MaxRetries handler < GoInt.max_int)%Z -> (0 <= t)%Z ->
        (count is_send evs <= Z.to_nat (EmailHandler.MaxRetries handler + 1 - t))%nat).
Proof.
  induction fuel as [|fuel IH]; intros t st.
  - exists OutOfFuel, []. simpl. unfold out_of_fuel. rewrite ext_nil.
    repeat split; unfold count; simpl; lia.
  - destruct (Z.leb_spec t (EmailHandler.MaxRetries handler)) as [Ht|Ht].
    + destruct (DialAndSend W (count is_send (trace st)) d m) as [e|] eqn:He.
      * rewrite (Email_retry_failure W handler fuel d m t st e Ht He).
        destruct (IH (GoInt.incr t) (ext st (email_failure d m e)))
          as (res & evs & Hrun & Hl & Hs & Hb).
        exists res, (email_failure d m e ++ evs). rewrite Hrun, ext_ext.
        split; [reflexivity|]. split; [now rewrite lookups_app, Hl|].
        rewrite !count_app. change (count is_sleep (email_failure d m e)) with 1%nat.
        change (count is_send (email_failure d m e)) with 1%nat.
        split; [lia|]. intros Hmax Ht0.
        rewrite incr_small in Hb
          by (unfold GoInt.min_int, GoInt.bits;
              change (2 ^ (64 - 1))%Z with 9223372036854775808%Z; lia).
        specialize (Hb Hmax ltac:(lia)). lia.
      * rewrite (Email_retry_success W handler fuel d m t st Ht He).
        exists (Normal tt), [EDialAndSend d m]. split; [reflexivity|].
        split; [reflexivity|]. split; [unfold count; simpl; lia|].
        intros _ _. change (count is_send [EDialAndSend d m]) with 1%nat. lia.
    + rewrite Email_retry_done by exact Ht.
      exists (Normal tt), []. rewrite ext_nil. repeat split; unfold count; simpl; lia.
Qed.

(** One iteration of the loop over the recipients: either it panics on
    the index before anything happened, or it starts with the lookup of
    the recipient's domain and looks nothing else up. *)
Lemma Email_body_any fuel alert recipient st :
  exists res evs,
    EmailHandler.body fuel W handler alert recipient st = (res, ext st evs)
    /\ ((evs = [] /\ res <> Normal tt /\ nth_error (Split recipient at_sign) 1 = None)
        \/ exists domain tail,
             domain_of recipient domain /\ evs = ELookupMX domain :: tail /\ lookups tail = [])
    /\ (count is_sleep evs <= count is_send evs)%nat
    /\ ((EmailHandler.MaxRetries handler < GoInt.max_int)%Z ->
        (count is_send evs <= allowed (EmailHandler.MaxRetries handler))%nat).
Proof.
  unfold domain_of.
  destruct (nth_error (Split recipient at_sign) 1) as [domain|] eqn:Hd.
  - destruct (LookupMX W (count is_lookup (trace st)) domain) as [records [e|]] eqn:Hl.
    + rewrite (Email_body_lookup_failure W handler fuel alert recipient domain records e st
                 Hd Hl).
      eexists (Normal tt), [ELookupMX domain; _]. split; [reflexivity|].
      split; [right; exists domain; eexists; repeat split|].
      split; [unfold count; simpl; lia | intros _; unfold count; simpl; lia].
    + destruct (heap st alert) as [a|] eqn:Hp; [destruct records as [|mx records]|].
      * unfold EmailHandler.body, index. rewrite Hd.
        unfold bind at 1, ret. unfold bind at 1, net_LookupMX. rewrite Hl.
        change (mkState (heap st) (trace st ++ [ELookupMX domain]))
          with (ext st [ELookupMX domain]).
        assert (Hp' : heap (ext st [ELookupMX domain]) alert = Some a) by exact Hp.
        rewrite (bind_normal _ _ _ _ _ (field_ok Message _ _ _ Hp')).
        rewrite (bind_normal _ _ _ _ _ (field_ok Details _ _ _ Hp')).
        eexists (Panicked _), [ELookupMX domain]. split; [reflexivity|].
        split; [right; exists domain, []; repeat split|].
        split; [unfold count; simpl; lia | intros _; unfold count; simpl; lia].
      * rewrite (Email_body_lookup_success W handler fuel alert a recipient domain mx records
                   st Hp Hd Hl).
        destruct (Email_retry_any (mail_dialer mx) (alert_mail recipient a)
                    fuel 0 (ext st [ELookupMX domain]))
          as (res & evs & Hrun & Hlk & Hs & Hb).
        exists res, (ELookupMX domain :: evs). rewrite Hrun, ext_ext.
        split; [reflexivity|].
        split; [right; exists domain, evs; repeat split; exact Hlk|].
        change (ELookupMX domain :: evs) with ([ELookupMX domain] ++ evs).
        rewrite !count_app.
        change (count is_sleep [ELookupMX domain]) with 0%nat.
        change (count is_send [ELookupMX domain]) with 0%nat.
        split; [lia|]. intros Hmax. specialize (Hb Hmax ltac:(lia)).
        unfold allowed. replace (EmailHandler.MaxRetries handler + 1 - 0)%Z
          with (EmailHandler.MaxRetries handler + 1)%Z in Hb by lia. lia.
      * unfold EmailHandler.body, index. rewrite Hd.
        unfold bind at 1, ret. unfold bind at 1, net_LookupMX. rewrite Hl.
        change (mkState (heap st) (trace st ++ [ELookupMX domain]))
          with (ext st [ELookupMX domain]).
        assert (Hp' : heap (ext st [ELookupMX domain]) alert = None) by exact Hp.
        unfold bind at 1. rewrite (field_nil Message _ _ Hp').
        eexists (Panicked _), [ELookupMX domain]. split; [reflexivity|].
        split; [right; exists domain, []; repeat split|].
        split; [unfold count; simpl; lia | intros _; unfold count; simpl; lia].
  - unfold EmailHandler.body, index. rewrite Hd.
    eexists (Panicked _), []. rewrite ext_nil. split; [reflexivity|].
    split; [left; split; [reflexivity | split; [discriminate | reflexivity]]|].
    split; [unfold count; simpl; lia | intros _; unfold count; simpl; lia].
Qed.

(** The loop over the recipients: the lookups are those of a first part
    of the list, in its order, of all of it when the loop returns. *)
Lemma Email_for_range_any fuel alert recipients :
  forall st, exists res evs,
    for_range recipients (EmailHandler.body fuel W handler alert) st = (res, ext st evs)
    /\ Forall2 domain_of (firstn (List.length (lookups evs)) recipients) (lookups evs)
    /\ (res = Normal tt -> List.length (lookups evs) = List.length recipients)
    /\ (count is_sleep evs <= count is_send evs)%nat
    /\ ((EmailHandler.MaxRetries handler < GoInt.max_int)%Z ->
        (count is_send evs
         <= List.length recipients * allowed (EmailHandler.MaxRetries handler))%nat).
Proof.
  induction recipients as [|r rs IH]; intros st.
  - exists (Normal tt), []. simpl. unfold ret. rewrite ext_nil.
    repeat split; unfold count; simpl; auto; lia.
  - simpl for_range. unfold bind.
    destruct (Email_body_any fuel alert r st) as (res & evs & Hrun & Hl & Hs & Hb).
    rewrite Hrun.
    destruct Hl as [(-> & Hres & _)|(domain & tail & Hd & -> & Htail)].
    + exists res, []. split.
      * destruct res as [[]| | |]; try reflexivity. now contradiction Hres.
      * unfold count; simpl. repeat split; auto; try lia. intros ->. now contradiction Hres.
    + assert (Hlook : lookups (ELookupMX domain :: tail) = [domain])
        by (simpl; now rewrite Htail).
      destruct res as [[]| | |].
      * destruct (IH (ext st (ELookupMX domain :: tail)))
          as (res' & evs' & Hrun' & Hl' & Hn' & Hs' & Hb').
        exists res', ((ELookupMX domain :: tail) ++ evs'). rewrite Hrun', ext_ext.
        split; [reflexivity|]. rewrite lookups_app, Hlook. simpl List.length. simpl firstn.
        split; [now constructor|]. split; [intros Hres; now rewrite Hn'|].
        rewrite !count_app. split; [lia|]. intros Hmax.
        specialize (Hb Hmax). specialize (Hb' Hmax). simpl. lia.
      * exists (Panicked v), (ELookupMX domain :: tail). split; [reflexivity|].
        rewrite Hlook. simpl. split; [now repeat constructor|].
        split; [discriminate|]. split; [exact Hs|]. intros Hmax. specialize (Hb Hmax). lia.
      * exists (Exited code), (ELookupMX domain :: tail). split; [reflexivity|].
        rewrite Hlook. simpl. split; [now repeat constructor|].
        split; [discriminate|]. split; [exact Hs|]. intros Hmax. specialize (Hb Hmax). lia.
      * exists OutOfFuel, (ELookupMX domain :: tail). split; [reflexivity|].
        rewrite Hlook. simpl. split; [now repeat constructor|].
        split; [discriminate|]. split; [exact Hs|]. intros Hmax. specialize (Hb Hmax). lia.
Qed.

End EmailAnyRun.

Lemma Split_at_first_separator x y c :
  contains_byte x c = false -> Split (x +++ String c y) c = x :: Split y c.
Proof.
  induction x as [|d x IH]; simpl; intros H.
  - now rewrite Ascii.eqb_refl.
  - apply orb_false_elim in H as [Hd Hx]. rewrite Hd, (IH Hx). reflexivity.
Qed.




Lemma Email_body_no_records W handler fuel alert a recipient domain st :
  heap st alert = Some a ->
  domain_of recipient domain ->
  LookupMX W (count is_lookup (trace st)) domain = ([], None) ->
  EmailHandler.body fuel W handler alert recipient st
  = (Panicked "runtime error: index out of range [0] with length 0",
     ext st [ELookupMX domain]).
Proof.
  intros Hp Hd Hl. unfold EmailHandler.body, index. rewrite Hd.
  unfold bind at 1, ret. unfold bind at 1, net_LookupMX. rewrite Hl.
  change (mkState (heap st) (trace st ++ [ELookupMX domain])) with (ext st [ELookupMX domain]).
  assert (Hp' : heap (ext st [ELookupMX domain]) alert = Some a) by exact Hp.
  rewrite (bind_normal _ _ _ _ _ (field_ok Message _ _ _ Hp')).
  rewrite (bind_normal _ _ _ _ _ (field_ok Details _ _ _ Hp')).
  reflexivity.
Qed.

(** X6. An MX lookup that succeeds with no record at all makes the e-mail
    handler panic on element 0 of the records: once the recipients before
    [r] are done, the call ends with that panic right after the lookup for
    [r], with no delivery for [r] and nothing done for the recipients
    after it. *)
Theorem email_panics_on_no_record :
  forall fuel W (h : EmailHandler.t) datacenter p a pre r post st st1 domain,
    heap st p = Some a ->
    EmailHandler.Recipients h = pre ++ r :: post ->
    for_range pre (EmailHandler.body fuel W h p) st = (Normal tt, st1) ->
    nth_error (Split r at_sign) 1 = Some domain ->
    LookupMX W (count is_lookup (trace st1)) domain = ([], None) ->
    Alert fuel W h datacenter p st
    = (Panicked "runtime error: index out of range [0] with length 0",
       ext st1 [ELookupMX domain]).
Proof.
  intros fuel W h dc p a pre r post st st1 domain Hp0 Hr Hpre Hd Hl. simpl Alert.
  assert (Hp : heap st1 p = Some a).
  { destruct (frame_for_range pre _ (frame_Email_body fuel W h p) st) as [evs Hevs].
    rewrite Hpre in Hevs. simpl in Hevs. now subst st1. }
  rewrite (Email_Alert_at W h fuel dc p pre r post st st1 Hr Hpre).
  unfold bind. now rewrite (Email_body_no_records W h fuel p a r domain st1 Hp Hd Hl).
Qed.

Lemma email_panics_on_no_record_witness :
  Alert 3 hollow (EmailHandler.mk ["a@example.com"; "b@example.org"] 1) "us-east" 1 Sample.st0
  = (Panicked "runtime error: index out of range [0] with length 0",
     ext Sample.st0 [ELookupMX "example.com"]).
Proof.
  exact (email_panics_on_no_record 3 hollow
           (EmailHandler.mk ["a@example.com"; "b@example.org"] 1) "us-east" 1 Sample.web
           [] "a@example.com" ["b@example.org"] Sample.st0 Sample.st0 "example.com"
           eq_refl eq_refl eq_refl eq_refl eq_refl).
Defined.

(** X7. With [MaxRetries] below the greatest [int], whatever the world
    answers and however the call ends, the e-mail handler attempts at most
    [MaxRetries + 1] deliveries a recipient (none when [MaxRetries] is
    negative), and it never sleeps more often than it attempted a
    delivery. *)
Theorem email_attempts_within_budget :
  forall fuel W (h : EmailHandler.t) datacenter p st,
    (EmailHandler.MaxRetries h < GoInt.max_int)%Z ->
    (count is_send (issued (Alert fuel W h datacenter p) st)
     <= List.length (EmailHandler.Recipients h) * Z.to_nat (EmailHandler.MaxRetries h + 1))%nat
    /\ (count is_sleep (issued (Alert fuel W h datacenter p) st)
        <= count is_send (issued (Alert fuel W h datacenter p) st))%nat.
Proof.
  intros fuel W h dc p st Hmax. simpl Alert. unfold EmailHandler.Alert.
  destruct (Email_for_range_any W h fuel p (EmailHandler.Recipients h) st)
    as (res & evs & Hrun & _ & _ & Hs & Hb).
  rewrite (issued_ext _ _ _ _ Hrun). split; [exact (Hb Hmax) | exact Hs].
Qed.

Lemma email_attempts_within_budget_witness :
  (count is_send
     (issued (Alert 9 Sample.refusing (EmailHandler.mk ["a@example.com"; "b@example.org"] 2)
                "us-east" 1) Sample.st0) <= 2 * 3)%nat
  /\ (count is_send
        (issued (Alert 9 Sample.refusing (EmailHandler.mk ["a@example.com"] (-4))
                   "us-east" 1) Sample.st0) <= 1 * 0)%nat.
Proof.
  split.
  - exact (proj1 (email_attempts_within_budget 9 Sample.refusing
                    (EmailHandler.mk ["a@example.com"; "b@example.org"] 2) "us-east" 1
                    Sample.st0 eq_refl)).
  - exact (proj1 (email_attempts_within_budget 9 Sample.refusing
                    (EmailHandler.mk ["a@example.com"] (-4)) "us-east" 1
                    Sample.st0 eq_refl)).
Defined.

(** X8. However the call ends, the MX lookups of the e-mail handler are
    those of the first recipients of the list, one each and in the order
    of the list; when the call returns they are those of all the
    recipients. *)
Theorem email_lookups_follow_the_list :
  forall fuel W (h : EmailHandler.t) datacenter p st,
    let looked_up := lookups (issued (Alert fuel W h datacenter p) st) in
    Forall2 (fun r domain => nth_error (Split r at_sign) 1 = Some domain)
      (firstn (List.length looked_up) (EmailHandler.Recipients h)) looked_up
    /\ (fst (Alert fuel W h datacenter p st) = Normal tt ->
        List.length looked_up = List.length (EmailHandler.Recipients h)).
Proof.
  intros fuel W h dc p st. simpl Alert. unfold EmailHandler.Alert.
  destruct (Email_for_range_any W h fuel p (EmailHandler.Recipients h) st)
    as (res & evs & Hrun & Hl & Hn & _ & _).
  cbv zeta. rewrite (issued_ext _ _ _ _ Hrun), Hrun. split; [exact Hl | exact Hn].
Qed.

Lemma email_lookups_follow_the_list_witness :
  List.length
    (lookups (issued (Alert 4 Sample.refusing
                        (EmailHandler.mk ["a@example.com"; "b@example.org"] 1) "us-east" 1)
                Sample.st0))
  = 2%nat.
Proof.
  exact (proj2 (email_lookups_follow_the_list 4 Sample.refusing
                  (EmailHandler.mk ["a@example.com"; "b@example.org"] 1) "us-east" 1
                  Sample.st0) eq_refl).
Defined.

(** X9. For a recipient [local@domain] with no further at sign the lookup
    is that of [domain]; and when more at signs follow, the lookup is
    still that of the text between the first two: what comes after the
    second at sign is dropped. *)
Theorem email_looks_up_text_after_first_at_sign :
  forall fuel W (h : EmailHandler.t) p st local domain,
    contains_byte local at_sign = false ->
    contains_byte domain at_sign = false ->
    (exists res evs,
        EmailHandler.body fuel W h p (local +++ "@" +++ domain) st
        = (res, ext st (ELookupMX domain :: evs)))
    /\ (forall more, exists res evs,
          EmailHandler.body fuel W h p (local +++ "@" +++ domain +++ "@" +++ more) st
          = (res, ext st (ELookupMX domain :: evs))).
Proof.
  intros fuel W h p st local domain Hlocal Hdomain.
  assert (Hone : domain_of (local +++ "@" +++ domain) domain).
  { unfold domain_of.
    replace (local +++ "@" +++ domain) with (local +++ String at_sign domain)
      by (now rewrite append_assoc).
    rewrite (Split_at_first_separator local domain at_sign Hlocal).
    now rewrite (Split_without_separator domain at_sign Hdomain). }
  assert (Htwo : forall more, domain_of (local +++ "@" +++ domain +++ "@" +++ more) domain).
  { intros more. unfold domain_of.
    replace (local +++ "@" +++ domain +++ "@" +++ more)
      with (local +++ String at_sign (domain +++ String at_sign more))
      by (now rewrite !append_assoc).
    rewrite (Split_at_first_separator local _ at_sign Hlocal).
    now rewrite (Split_at_first_separator domain more at_sign Hdomain). }
  assert (Hany : forall r, domain_of r domain ->
             exists res evs, EmailHandler.body fuel W h p r st
                             = (res, ext st (ELookupMX domain :: evs))).
  { intros r Hr.
    destruct (Email_body_any W h fuel p r st) as (res & evs & Hrun & Hl & _).
    destruct Hl as [(_ & _ & Hnone)|(d & tail & Hd & -> & _)].
    - unfold domain_of in Hr. rewrite Hr in Hnone. discriminate.
    - unfold domain_of in Hd, Hr. rewrite Hr in Hd. injection Hd as <-. eauto. }
  split; [exact (Hany _ Hone) | intros more; exact (Hany _ (Htwo more))].
Qed.

Lemma email_looks_up_text_after_first_at_sign_witness :
  exists res evs,
    EmailHandler.body 2 Sample.calm (EmailHandler.mk ["ops@example.com@backup"] 0) 1
      "ops@example.com@backup" Sample.st0
    = (res, ext Sample.st0 (ELookupMX "example.com" :: evs)).
Proof.
  exact (proj2 (email_looks_up_text_after_first_at_sign 2 Sample.calm
                  (EmailHandler.mk ["ops@example.com@backup"] 0) 1 Sample.st0
                  "ops" "example.com" eq_refl eq_refl) "backup").
Defined.


(** ** Console: the lines of the details *)

Lemma Join_Split s c : Join (Split s c) (String c EmptyString) = s.
Proof.
  induction s as [|d s IH]; [reflexivity|]. simpl Split.
  destruct (Ascii.eqb_spec d c) as [->|Hd].
  - destruct (Split s c) as [|piece pieces] eqn:Hs; [now apply Split_not_nil in Hs|].
    simpl Join in *. now rewrite IH.
  - destruct (Split s c) as [|piece pieces] eqn:Hs; [now apply Split_not_nil in Hs|].
    simpl Join in *. destruct pieces; simpl; now rewrite <- IH.
Qed.

Lemma Split_pieces_without_separator s c :
  Forall (fun piece => contains_byte piece c = false) (Split s c).
Proof.
  induction s as [|d s IH]; simpl.
  - now repeat constructor.
  - destruct (Ascii.eqb d c) eqn:Hd.
    + now constructor.
    + destruct (Split s c) as [|piece pieces].
      { repeat constructor. simpl. now rewrite Hd. }
      inversion IH as [|? ? Hp Hps]; subst. constructor; [|exact Hps].
      simpl. now rewrite Hd, Hp.
Qed.

Lemma Split_length s c : List.length (Split s c) = S (count_byte s c).
Proof.
  induction s as [|d s IH]; simpl; [reflexivity|].
  destruct (Ascii.eqb d c); simpl.
  - now rewrite IH.
  - destruct (Split s c) as [|piece pieces]; simpl in *; lia.
Qed.

(** X10. At the levels error, warn, warning, info and debug the console
    handler logs non-empty details without loss: after the message come
    as many entries as the details have line breaks, and one more; no
    entry contains a line break, and joined by line breaks the entries
    give the details back. *)
Theorem console_logs_details_without_loss :
  forall fuel W (h : StdoutHandler.t) datacenter p a st lvl,
    heap st p = Some a ->
    configured_level (ToLower W (StdoutHandler.LogLevel h)) = Some lvl ->
    lvl <> PanicLevel -> lvl <> FatalLevel ->
    Details a <> "" ->
    exists lines,
      issued (Alert fuel W h datacenter p) st
      = ELog (StdoutHandler.logger h) lvl (Message a)
        :: map (ELog (StdoutHandler.logger h) lvl) lines
      /\ Join lines (String newline "") = Details a
      /\ Forall (fun line => contains_byte line newline = false) lines
      /\ List.length lines = S (count_byte (Details a) newline).
Proof.
  intros fuel W h dc p a st lvl Hp Hlvl Hpanic Hfatal Hdetails.
  exists (Split (Details a) newline). simpl Alert.
  assert (Hrun : StdoutHandler.Alert W h dc p st
                 = (Normal tt,
                    ext st (map (ELog (StdoutHandler.logger h) lvl)
                              (Message a :: Split (Details a) newline)))).
  { rewrite (Console_run W h dc p a st Hp), emit_lines_run, Hlvl.
    unfold detail_lines. apply String.eqb_neq in Hdetails. rewrite Hdetails.
    destruct lvl; try reflexivity; contradiction. }
  rewrite (issued_ext _ _ _ _ Hrun). split; [reflexivity|].
  split; [apply Join_Split|].
  split; [apply Split_pieces_without_separator | apply Split_length].
Qed.

Lemma console_logs_details_without_loss_witness :
  exists lines,
    issued (Alert 0 Sample.calm (StdoutHandler.mk "INFO" (HandlerLogger 7)) "us-east" 1)
      Sample.st0
    = ELog (HandlerLogger 7) InfoLevel "web unhealthy"
      :: map (ELog (HandlerLogger 7) InfoLevel) lines
    /\ Join lines (String newline "") = Details Sample.web
    /\ Forall (fun line => contains_byte line newline = false) lines
    /\ List.length lines = 2%nat.
Proof.
  exact (console_logs_details_without_loss 0 Sample.calm
           (StdoutHandler.mk "INFO" (HandlerLogger 7)) "us-east" 1 Sample.web Sample.st0
           InfoLevel eq_refl eq_refl ltac:(discriminate) ltac:(discriminate)
           ltac:(discriminate)).
Defined.

(** ** Slack: every run, whatever the fuel and the budget *)

Lemma slack_rounds_S W handler text c k :
  slack_rounds W handler text c (S k)
  = (SlackHandler.Token handler, slack_payload text (Now_Unix W c))
    :: slack_rounds W handler text (S c) k.
Proof.
  unfold slack_rounds. simpl seq. simpl map. rewrite Nat.add_0_r. f_equal.
  rewrite <- seq_shift, map_map. apply map_ext. intros j.
  now replace (c + S j)%nat with (S c + j)%nat by lia.
Qed.

Section SlackAnyRun.

Variables (W : World) (handler : SlackHandler.t) (text : string).

(** The loop reads the clock once before each post, stamps the post with
    that reading, sleeps only after a post, and with a budget below the
    greatest [int] stays within it. *)
Lemma Slack_retry_any fuel :
  forall t st, exists res evs,
    SlackHandler.retry fuel W handler text t st = (res, ext st evs)
    /\ posts evs = slack_rounds W handler text (count is_now (trace st)) (count is_post evs)
    /\ count is_now evs = count is_post evs
    /\ (count is_sleep evs <= count is_post evs)%nat
    /\ ((SlackHandler.MaxRetries handler < GoInt.max_int)%Z -> (0 <= t)%Z ->
        (count is_post evs <= Z.to_nat (SlackHandler.MaxRetries handler + 1 - t))%nat).
Proof.
  induction fuel as [|fuel IH]; intros t st.
  - exists OutOfFuel, []. simpl. unfold out_of_fuel. rewrite ext_nil.
    repeat split; unfold count; simpl; lia.
  - destruct (Z.leb_spec t (SlackHandler.MaxRetries handler)) as [Ht|Ht].
    + destruct (slack_answer W handler text st) as [e|] eqn:He.
      * rewrite (Slack_retry_failure W handler text fuel t st e Ht He).
        destruct (IH (GoInt.incr t)
                    (ext st (slack_failure handler text
                               (Now_Unix W (count is_now (trace st))) e)))
          as (res & evs & Hrun & Hposts & Hnow & Hs & Hb).
        rewrite count_ext, count_now_failure in Hposts.
        eexists res, (_ ++ evs). rewrite Hrun, ext_ext. split; [reflexivity|].
        rewrite posts_app, !count_app, count_post_failure, count_now_failure.
        change (count is_sleep (slack_failure handler text
                                  (Now_Unix W (count is_now (trace st))) e)) with 1%nat.
        split.
        { simpl Nat.add. rewrite slack_rounds_S. simpl posts at 1. simpl app. f_equal.
          now replace (S (count is_now (trace st)))
            with (count is_now (trace st) + 1)%nat by lia. }
        split; [lia|]. split; [lia|]. intros Hmax Ht0.
        rewrite incr_small in Hb
          by (unfold GoInt.min_int, GoInt.bits;
              change (2 ^ (64 - 1))%Z with 9223372036854775808%Z; lia).
        specialize (Hb Hmax ltac:(lia)). lia.
      * rewrite (Slack_retry_success W handler text fuel t st Ht He).
        eexists (Normal tt), _. split; [reflexivity|].
        change (count is_post [ENow; EPostWebhook (SlackHandler.Token handler)
                                       (slack_payload text
                                          (Now_Unix W (count is_now (trace st))))])
          with 1%nat.
        split; [now rewrite slack_rounds_S|].
        split; [reflexivity|]. split; [unfold count; simpl; lia|]. intros _ _. lia.
    + rewrite Slack_retry_done by exact Ht.
      exists (Normal tt), []. rewrite ext_nil. repeat split; unfold count; simpl; lia.
Qed.

(** A success at round [k], after [k] failures, ends the loop with its
    [k + 1] posts, for every budget that an [int] can hold and that
    allows this round. *)
Lemma Slack_retry_first_success :
  (SlackHandler.MaxRetries handler <= GoInt.max_int)%Z ->
  forall k fuel t st,
    (0 <= t)%Z ->
    (t + Z.of_nat k <= SlackHandler.MaxRetries handler)%Z ->
    (k < fuel)%nat ->
    first_success
      (fun j => PostWebhook W (count is_post (trace st) + j) (SlackHandler.Token handler)
                  (slack_payload text (Now_Unix W (count is_now (trace st) + j)))) k ->
    exists evs,
      SlackHandler.retry fuel W handler text t st = (Normal tt, ext st evs)
      /\ count is_post evs = S k.
Proof.
  intros Hmax. induction k as [|k IH]; intros fuel t st Ht Hk Hfuel [Hok Hfail];
    (destruct fuel as [|fuel]; [lia|]).
  - rewrite !Nat.add_0_r in Hok.
    rewrite (Slack_retry_success W handler text fuel t st ltac:(lia) Hok).
    eexists. split; reflexivity.
  - destruct (slack_answer W handler text st) as [e|] eqn:He.
    + rewrite (Slack_retry_failure W handler text fuel t st e ltac:(lia) He).
      destruct (IH fuel (GoInt.incr t)
                  (ext st (slack_failure handler text
                             (Now_Unix W (count is_now (trace st))) e)))
        as (evs & Hrun & Hcount).
      * rewrite incr_small; unfold GoInt.min_int, GoInt.bits;
          change (2 ^ (64 - 1))%Z with 9223372036854775808%Z; lia.
      * rewrite incr_small; unfold GoInt.min_int, GoInt.bits;
          change (2 ^ (64 - 1))%Z with 9223372036854775808%Z; lia.
      * lia.
      * rewrite !count_ext, count_post_failure, count_now_failure. split.
        -- rewrite <- Hok. f_equal; [lia | do 2 f_equal; lia].
        -- intros j Hj. specialize (Hfail (S j) ltac:(lia)).
           intros Hnone. apply Hfail. rewrite <- Hnone. f_equal; [lia | do 2 f_equal; lia].
      * eexists. rewrite Hrun, ext_ext. split; [reflexivity|].
        now rewrite count_app, count_post_failure, Hcount.
    + exfalso. apply (Hfail 0%nat ltac:(lia)). rewrite !Nat.add_0_r. exact He.
Qed.

End SlackAnyRun.

Lemma Email_retry_first_success W handler d m :
  (EmailHandler.MaxRetries handler <= GoInt.max_int)%Z ->
  forall k fuel t st,
    (0 <= t)%Z ->
    (t + Z.of_nat k <= EmailHandler.MaxRetries handler)%Z ->
    (k < fuel)%nat ->
    first_success (fun j => DialAndSend W (count is_send (trace st) + j) d m) k ->
    exists evs,
      EmailHandler.retry fuel W handler d m t st = (Normal tt, ext st evs)
      /\ count is_send evs = S k.
Proof.
  intros Hmax. induction k as [|k IH]; intros fuel t st Ht Hk Hfuel [Hok Hfail];
    (destruct fuel as [|fuel]; [lia|]).
  - rewrite Nat.add_0_r in Hok.
    rewrite (Email_retry_success W handler fuel d m t st ltac:(lia) Hok).
    eexists. split; reflexivity.
  - destruct (DialAndSend W (count is_send (trace st)) d m) as [e|] eqn:He.
    + rewrite (Email_retry_failure W handler fuel d m t st e ltac:(lia) He).
      destruct (IH fuel (GoInt.incr t) (ext st (email_failure d m e)))
        as (evs & Hrun & Hcount).
      * rewrite incr_small; unfold GoInt.min_int, GoInt.bits;
          change (2 ^ (64 - 1))%Z with 9223372036854775808%Z; lia.
      * rewrite incr_small; unfold GoInt.min_int, GoInt.bits;
          change (2 ^ (64 - 1))%Z with 9223372036854775808%Z; lia.
      * lia.
      * rewrite !count_ext, count_send_failure. split.
        -- rewrite <- Hok. f_equal; lia.
        -- intros j Hj. specialize (Hfail (S j) ltac:(lia)).
           intros Hnone. apply Hfail. rewrite <- Hnone. f_equal; lia.
      * eexists. rewrite Hrun, ext_ext. split; [reflexivity|].
        now rewrite count_app, count_send_failure, Hcount.
    + exfalso. apply (Hfail 0%nat ltac:(lia)). rewrite Nat.add_0_r. exact He.
Qed.

(** X11. However the call ends and whatever the budget, the Slack handler
    reads the clock once for each post it makes, and the posts, in their
    order, all go to the token with the same text and carry the
    successive readings of the clock as time stamps: the attachment is
    built anew in every round. *)
Theorem slack_posts_are_stamped_afresh :
  forall fuel W (h : SlackHandler.t) datacenter p a st,
    heap st p = Some a ->
    let out := issued (Alert fuel W h datacenter p) st in
    let c := count is_now (trace st) in
    posts out
    = map (fun j =>
             (SlackHandler.Token h,
              mkWebhookMessage
                [SlackHandler.attachment
                   (SlackHandler.slackMessageFormat (Message a) (Details a))
                   (Now_Unix W (c + j))]))
        (seq 0 (count is_post out))
    /\ count is_now out = count is_post out.
Proof.
  intros fuel W h dc p a st Hp out c. subst out. simpl Alert.
  destruct (Slack_retry_any W h (slack_text a) fuel 0 st)
    as (res & evs & Hrun & Hposts & Hnow & _ & _).
  rewrite <- (Slack_Alert_run fuel W h dc p a st Hp) in Hrun.
  rewrite (issued_ext _ _ _ _ Hrun). split; [exact Hposts | exact Hnow].
Qed.

Lemma slack_posts_are_stamped_afresh_witness :
  posts (issued (Alert 5 third_time_lucky (SlackHandler.mk "token" "alerts" 4) "us-east" 2)
           Sample.st0)
  = map (fun j =>
           ("token",
            mkWebhookMessage
              [SlackHandler.attachment
                 (SlackHandler.slackMessageFormat "web healthy" "")
                 (Now_Unix third_time_lucky (0 + j))]))
      (seq 0 (count is_post
                (issued (Alert 5 third_time_lucky (SlackHandler.mk "token" "alerts" 4)
                           "us-east" 2) Sample.st0))).
Proof.
  exact (proj1 (slack_posts_are_stamped_afresh 5 third_time_lucky
                  (SlackHandler.mk "token" "alerts" 4) "us-east" 2 Sample.web_ok Sample.st0
                  eq_refl)).
Defined.

(** X12. The Slack handler never sleeps more often than it posted; with
    [MaxRetries] below the greatest [int] it posts at most
    [MaxRetries + 1] times, however the call ends; and with a negative
    [MaxRetries] it returns at once, having posted and logged nothing and
    not even read the clock. *)
Theorem slack_attempts_within_budget :
  forall fuel W (h : SlackHandler.t) datacenter p a st,
    heap st p = Some a ->
    let out := issued (Alert fuel W h datacenter p) st in
    (count is_sleep out <= count is_post out)%nat
    /\ ((SlackHandler.MaxRetries h < GoInt.max_int)%Z ->
        (count is_post out <= Z.to_nat (SlackHandler.MaxRetries h + 1))%nat)
    /\ ((SlackHandler.MaxRetries h < 0)%Z -> (0 < fuel)%nat ->
        Alert fuel W h datacenter p st = (Normal tt, st)).
Proof.
  intros fuel W h dc p a st Hp out. subst out. simpl Alert.
  destruct (Slack_retry_any W h (slack_text a) fuel 0 st)
    as (res & evs & Hrun & _ & _ & Hs & Hb).
  rewrite <- (Slack_Alert_run fuel W h dc p a st Hp) in Hrun.
  rewrite (issued_ext _ _ _ _ Hrun). split; [exact Hs|]. split.
  - intros Hmax. specialize (Hb Hmax ltac:(lia)).
    now replace (SlackHandler.MaxRetries h + 1 - 0)%Z
      with (SlackHandler.MaxRetries h + 1)%Z in Hb by lia.
  - intros Hneg Hfuel. destruct fuel as [|fuel]; [lia|].
    rewrite (Slack_Alert_run (S fuel) W h dc p a st Hp).
    now apply Slack_retry_done.
Qed.

Lemma slack_attempts_within_budget_witness :
  (count is_post
     (issued (Alert 9 Sample.down (SlackHandler.mk "token" "alerts" 3) "us-east" 1) Sample.st0)
   <= 4)%nat
  /\ Alert 1 Sample.down (SlackHandler.mk "token" "alerts" (-1)) "us-east" 1 Sample.st0
     = (Normal tt, Sample.st0).
Proof.
  split.
  - exact (proj1 (proj2 (slack_attempts_within_budget 9 Sample.down
                           (SlackHandler.mk "token" "alerts" 3) "us-east" 1 Sample.web
                           Sample.st0 eq_refl)) eq_refl).
  - apply (proj2 (proj2 (slack_attempts_within_budget 1 Sample.down
                           (SlackHandler.mk "token" "alerts" (-1)) "us-east" 1 Sample.web
                           Sample.st0 eq_refl))).
    + reflexivity.
    + lia.
Defined.

(** X13. A first success ends both retry loops, for every [MaxRetries]
    that an [int] can hold, the greatest included: if attempt [k] (from 0)
    is the first to succeed and [k <= MaxRetries], the e-mail handler, for
    a recipient whose MX lookup succeeded with a record, and the Slack
    handler return after exactly [k + 1] attempts. *)
Theorem retry_ends_at_first_success :
  (forall fuel W (h : EmailHandler.t) p a r st domain mx records k,
      heap st p = Some a ->
      nth_error (Split r at_sign) 1 = Some domain ->
      LookupMX W (count is_lookup (trace st)) domain = (mx :: records, None) ->
      (EmailHandler.MaxRetries h <= GoInt.max_int)%Z ->
      (Z.of_nat k <= EmailHandler.MaxRetries h)%Z ->
      (k < fuel)%nat ->
      first_success
        (fun j => DialAndSend W (count is_send (trace st) + j)
                    (mail_dialer mx) (alert_mail r a)) k ->
      fst (EmailHandler.body fuel W h p r st) = Normal tt
      /\ count is_send (issued (EmailHandler.body fuel W h p r) st) = S k)
  /\ (forall fuel W (h : SlackHandler.t) datacenter p a st k,
        heap st p = Some a ->
        (SlackHandler.MaxRetries h <= GoInt.max_int)%Z ->
        (Z.of_nat k <= SlackHandler.MaxRetries h)%Z ->
        (k < fuel)%nat ->
        first_success
          (fun j => PostWebhook W (count is_post (trace st) + j) (SlackHandler.Token h)
                      (slack_payload (slack_text a)
                         (Now_Unix W (count is_now (trace st) + j)))) k ->
        fst (Alert fuel W h datacenter p st) = Normal tt
        /\ count is_post (issued (Alert fuel W h datacenter p) st) = S k).
Proof.
  split.
  - intros fuel W h p a r st domain mx records k Hp Hd Hl Hmax Hk Hfuel Hfirst.
    destruct (Email_retry_first_success W h (mail_dialer mx) (alert_mail r a) Hmax
                k fuel 0 (ext st [ELookupMX domain]) ltac:(lia) ltac:(lia) Hfuel)
      as (evs & Hrun & Hcount).
    { rewrite count_ext. change (count is_send [ELookupMX domain]) with 0%nat.
      now rewrite Nat.add_0_r. }
    assert (Hbody : EmailHandler.body fuel W h p r st
                    = (Normal tt, ext st (ELookupMX domain :: evs))).
    { rewrite (Email_body_lookup_success W h fuel p a r domain mx records st Hp Hd Hl).
      now rewrite Hrun, ext_ext. }
    rewrite (issued_ext _ _ _ _ Hbody), Hbody. split; [reflexivity|].
    change (ELookupMX domain :: evs) with ([ELookupMX domain] ++ evs).
    now rewrite count_app, Hcount.
  - intros fuel W h dc p a st k Hp Hmax Hk Hfuel Hfirst. simpl Alert.
    destruct (Slack_retry_first_success W h (slack_text a) Hmax k fuel 0 st
                ltac:(lia) ltac:(lia) Hfuel Hfirst) as (evs & Hrun & Hcount).
    rewrite <- (Slack_Alert_run fuel W h dc p a st Hp) in Hrun.
    rewrite (issued_ext _ _ _ _ Hrun), Hrun. split; [reflexivity | exact Hcount].
Qed.

Lemma retry_ends_at_first_success_witness :
  count is_send
    (issued (EmailHandler.body 3 third_time_lucky
               (EmailHandler.mk ["a@example.com"] 9223372036854775807) 1 "a@example.com")
       Sample.st0) = 3%nat
  /\ count is_post
       (issued (Alert 3 third_time_lucky
                  (SlackHandler.mk "token" "alerts" 9223372036854775807) "us-east" 1)
          Sample.st0) = 3%nat.
Proof.
  destruct retry_ends_at_first_success as [Hemail Hslack].
  assert (Hint : (9223372036854775807 <= GoInt.max_int)%Z) by discriminate.
  assert (Hk : (Z.of_nat 2 <= 9223372036854775807)%Z) by discriminate.
  split.
  - apply (Hemail 3 third_time_lucky (EmailHandler.mk ["a@example.com"] 9223372036854775807)
             1 Sample.web "a@example.com" Sample.st0 "example.com"
             (mkMX "mx.example.com" 10) [] 2%nat eq_refl eq_refl eq_refl Hint Hk).
    + lia.
    + split; [reflexivity|]. intros [|[|j]] Hj; simpl; try discriminate. lia.
  - apply (Hslack 3 third_time_lucky (SlackHandler.mk "token" "alerts" 9223372036854775807)
             "us-east" 1 Sample.web Sample.st0 2%nat eq_refl Hint Hk).
    + lia.
    + split; [reflexivity|]. intros [|[|j]] Hj; simpl; try discriminate. lia.
Defined.

(** ** E-mail: where the isolation of recipients ends *)

Lemma lookups_In domain evs : In (ELookupMX domain) evs -> In domain (lookups evs).
Proof.
  induction evs as [|e evs IH]; intros H; [contradiction|].
  destruct H as [->|H]; [now left|].
  destruct e; simpl; auto.
Qed.

(** When every delivery fails and the budget is the greatest [int],
    [tries] never passes it: the loop for one recipient never ends and
    looks nothing up. *)
Lemma Email_retry_endless W handler d m fuel :
  EmailHandler.MaxRetries handler = GoInt.max_int ->
  (forall n d' m', DialAndSend W n d' m' <> None) ->
  forall t st,
    GoInt.in_range t ->
    exists evs,
      EmailHandler.retry fuel W handler d m t st = (OutOfFuel, ext st evs)
      /\ lookups evs = [].
Proof.
  intros Hmax Hfail. induction fuel as [|fuel IH]; intros t st Ht.
  - exists []. simpl. unfold out_of_fuel. now rewrite ext_nil.
  - destruct (DialAndSend W (count is_send (trace st)) d m) as [e|] eqn:He.
    + assert (Hle : (t <= EmailHandler.MaxRetries handler)%Z) by (rewrite Hmax; apply Ht).
      rewrite (Email_retry_failure W handler fuel d m t st e Hle He).
      destruct (IH (GoInt.incr t) (ext st (email_failure d m e)) (incr_in_range t))
        as (evs & Hrun & Hl).
      eexists. rewrite Hrun, ext_ext. split; [reflexivity|].
      now rewrite lookups_app, Hl.
    + now apply Hfail in He.
Qed.

(** C5 as stated fails.  With [MaxRetries] at 9223372036854775807 and a
    mail server that refuses every message, the deliveries for the first
    recipient never end, so the second recipient is never attempted, not
    even looked up.  And a recipient without an at sign ends the call by
    a panic before anything is done for the recipient after it. *)
Lemma later_recipients_can_be_blocked :
  ~ (exists fuel,
       In (ELookupMX "example.org")
         (issued (Alert fuel Sample.refusing
                    (EmailHandler.mk ["a@example.com"; "b@example.org"] 9223372036854775807)
                    "us-east" 1) Sample.st0))
  /\ Alert 4 Sample.calm (EmailHandler.mk ["root"; "c@example.org"] 1) "us-east" 1 Sample.st0
     = (Panicked "runtime error: index out of range [1] with length 1", Sample.st0).
Proof.
  split; [|reflexivity].
  intros (fuel & Hin). simpl Alert in Hin. unfold EmailHandler.Alert in Hin.
  simpl for_range in Hin.
  assert (Hbody : exists evs,
             EmailHandler.body fuel Sample.refusing
               (EmailHandler.mk ["a@example.com"; "b@example.org"] 9223372036854775807) 1
               "a@example.com" Sample.st0
             = (OutOfFuel, ext Sample.st0 (ELookupMX "example.com" :: evs))
             /\ lookups evs = []).
  { rewrite (Email_body_lookup_success Sample.refusing _ fuel 1 Sample.web "a@example.com"
               "example.com" (mkMX "mx.example.com" 10) [] Sample.st0
               eq_refl eq_refl eq_refl).
    destruct (Email_retry_endless Sample.refusing
                (EmailHandler.mk ["a@example.com"; "b@example.org"] 9223372036854775807)
                (mail_dialer (mkMX "mx.example.com" 10))
                (alert_mail "a@example.com" Sample.web) fuel eq_refl
                ltac:(intros n d' m'; discriminate) 0
                (ext Sample.st0 [ELookupMX "example.com"]) ltac:(split; discriminate))
      as (evs & Hrun & Hl).
    exists evs. rewrite Hrun, ext_ext. now split. }
  destruct Hbody as (evs & Hrun & Hl).
  assert (Hall : (bind (EmailHandler.body fuel Sample.refusing
                          (EmailHandler.mk ["a@example.com"; "b@example.org"]
                             9223372036854775807) 1 "a@example.com")
                    (fun _ => bind (EmailHandler.body fuel Sample.refusing
                                      (EmailHandler.mk ["a@example.com"; "b@example.org"]
                                         9223372036854775807) 1 "b@example.org")
                                (fun _ => ret tt))) Sample.st0
                 = (OutOfFuel, ext Sample.st0 (ELookupMX "example.com" :: evs))).
  { unfold bind at 1. now rewrite Hrun. }
  rewrite (issued_ext _ _ _ _ Hall) in Hin.
  apply lookups_In in Hin. simpl in Hin. rewrite Hl in Hin.
  destruct Hin as [Hin|[]]. discriminate.
Qed.

(** ** Slack: what is posted, and when the clock is read *)


Lemma FormatInt10_decimal :
  FormatInt10 0 = "0" /\ FormatInt10 1700000005 = "1700000005" /\ FormatInt10 (-42) = "-42".
Proof. repeat split. Qed.




(** ** What a call leaves in memory *)

(** The language can write: an assignment through the alert pointer
    changes the alert, one to an element of the slice changes the array,
    one through the handler pointer changes the handler value.  None of
    them is a frame. *)
Lemma writes_change_memory :
  heap (snd (assign_alert 1 Sample.web_ok Sample.st0)) 1 = Some Sample.web_ok
  /\ ~ frame (assign_alert 1 Sample.web_ok)
  /\ arrays (snd (store_element (mkSlice 9 2) 0 "x@example.net" sample_memory)) 9
     = Some ["x@example.net"; "b@example.org"]
  /\ ~ mframe (store_element (mkSlice 9 2) 0 "x@example.net")
  /\ handlers (snd (store_handler 7 (OfEmail (mkSlice 9 2) 5) sample_memory)) 7
     = Some (OfEmail (mkSlice 9 2) 5)
  /\ ~ mframe (store_handler 7 (OfEmail (mkSlice 9 2) 5)).
Proof.
  split; [reflexivity|]. split.
  { intros H. destruct (H Sample.st0) as [evs Hevs].
    apply (f_equal (fun s => heap s 1)) in Hevs. discriminate. }
  split; [reflexivity|]. split.
  { intros H. destruct (H sample_memory) as [evs Hevs].
    apply (f_equal (fun m => arrays m 9)) in Hevs. discriminate. }
  split; [reflexivity|].
  intros H. destruct (H sample_memory) as [evs Hevs].
  apply (f_equal (fun m => handlers m 7)) in Hevs. discriminate.
Qed.

Lemma mframe_ret {A} (a : A) : mframe (mret a).
Proof. intros mem. exists []. simpl. rewrite ext_nil. now destruct mem. Qed.

Lemma mframe_bind {A B} (m : MM A) (k : A -> MM B) :
  mframe m -> (forall a, mframe (k a)) -> mframe (mbind m k).
Proof.
  intros Hm Hk mem. destruct (Hm mem) as [e1 H1]. unfold mbind.
  destruct (m mem) as [[a| | |] mem1]; simpl in H1; subst mem1;
    try (now exists e1).
  destruct (Hk a (mkMemory (ext (state mem) e1) (arrays mem) (handlers mem))) as [e2 H2].
  exists (e1 ++ e2). rewrite H2. simpl. now rewrite ext_ext.
Qed.

Lemma mframe_lift {A} (m : M A) : frame m -> mframe (lift m).
Proof.
  intros Hm mem. destruct (Hm (state mem)) as [evs Hevs]. exists evs.
  unfold lift. destruct (m (state mem)) as [r st']. simpl in *. now subst st'.
Qed.

Lemma mframe_load_handler self : mframe (load_handler self).
Proof.
  intros mem. exists []. unfold load_handler.
  destruct (handlers mem self); simpl; rewrite ext_nil; now destruct mem.
Qed.

Lemma mframe_load_element s i : mframe (load_element s i).
Proof.
  intros mem. exists []. unfold load_element.
  destruct (if (i <? len s)%nat then _ else _); simpl; rewrite ext_nil; now destruct mem.
Qed.

Lemma mframe_range_from s body :
  (forall x, mframe (body x)) -> forall n i, mframe (range_from s i n body).
Proof.
  intros Hb. induction n as [|n IH]; intros i; simpl.
  - apply mframe_ret.
  - apply mframe_bind; [apply mframe_load_element | intros x].
    apply mframe_bind; [apply Hb | intros _; apply IH].
Qed.

Lemma mframe_Receiver_Alert fuel W handler datacenter alert :
  mframe (Receiver_Alert fuel W handler datacenter alert).
Proof.
  destruct handler as [h|recipients maxRetries|h|h]; simpl.
  - apply mframe_lift, frame_StdoutHandler.
  - apply mframe_range_from. intros x. apply mframe_lift, frame_Email_body.
  - apply mframe_lift, frame_PagerdutyHandler.
  - apply mframe_lift, frame_SlackHandler.
Qed.

Lemma mframe_call_Alert fuel W self datacenter alert :
  mframe (call_Alert fuel W self datacenter alert).
Proof.
  apply mframe_bind; [apply mframe_load_handler | intros handler].
  apply mframe_Receiver_Alert.
Qed.

(** *** the handlers in memory are the handlers above *)

Lemma lift_bind {A B} (m : M A) (k : A -> M B) mem :
  lift (bind m k) mem = mbind (lift m) (fun a => lift (k a)) mem.
Proof.
  unfold lift, mbind, bind. destruct (m (state mem)) as [[a| | |] st']; try reflexivity.
Qed.

Lemma Email_retry_reads_MaxRetries h h' W d m fuel :
  EmailHandler.MaxRetries h = EmailHandler.MaxRetries h' ->
  forall t st, EmailHandler.retry fuel W h d m t st = EmailHandler.retry fuel W h' d m t st.
Proof.
  intros Hmax. induction fuel as [|fuel IH]; intros t st; simpl; [reflexivity|].
  rewrite <- Hmax. destruct (t <=? EmailHandler.MaxRetries h)%Z; [|reflexivity].
  apply bind_ext. intros [e|] st1; [|reflexivity].
  apply bind_ext. intros _ st2. apply bind_ext. intros _ st3.
  apply bind_ext. intros _ st4. apply IH.
Qed.

(** The loop body reads nothing of its handler but [MaxRetries]. *)
Lemma Email_body_reads_MaxRetries h h' W fuel alert recipient st :
  EmailHandler.MaxRetries h = EmailHandler.MaxRetries h' ->
  EmailHandler.body fuel W h alert recipient st
  = EmailHandler.body fuel W h' alert recipient st.
Proof.
  intros Hmax. unfold EmailHandler.body.
  apply bind_ext. intros domain st1. apply bind_ext. intros [records [e|]] st2; [reflexivity|].
  apply bind_ext. intros subject st3. apply bind_ext. intros text st4.
  apply bind_ext. intros mx st5. now apply Email_retry_reads_MaxRetries.
Qed.

Lemma range_from_runs_the_loop fuel W maxRetries alert s xs :
  forall n i mem,
    arrays mem (array s) = Some xs ->
    (i + n <= len s)%nat ->
    (len s <= List.length xs)%nat ->
    range_from s i n
      (fun recipient =>
         lift (EmailHandler.body fuel W (EmailHandler.mk [] maxRetries) alert recipient)) mem
    = lift (for_range (firstn n (skipn i xs))
              (EmailHandler.body fuel W (EmailHandler.mk [] maxRetries) alert)) mem.
Proof.
  induction n as [|n IH]; intros i mem Harr Hi Hlen.
  - simpl. unfold mret, lift, ret. now destruct mem.
  - assert (Hnth : exists x, nth_error xs i = Some x).
    { destruct (nth_error xs i) as [x|] eqn:Hx; [now exists x|].
      apply nth_error_None in Hx. lia. }
    destruct Hnth as [x Hx].
    assert (Hskip : skipn i xs = x :: skipn (S i) xs).
    { clear - Hx. revert i Hx. induction xs as [|y xs IH]; intros [|i] Hx; simpl in *;
        try discriminate.
      - now injection Hx as ->.
      - now apply IH. }
    rewrite Hskip. simpl firstn. simpl for_range. simpl range_from.
    rewrite lift_bind. unfold mbind at 1.
    assert (Hload : load_element s i mem = (Normal x, mem)).
    { unfold load_element. replace (i <? len s)%nat with true
        by (symmetry; apply Nat.ltb_lt; lia). now rewrite Harr, Hx. }
    rewrite Hload. unfold mbind.
    destruct (lift (EmailHandler.body fuel W (EmailHandler.mk [] maxRetries) alert x) mem)
      as [[[]| | |] mem1] eqn:Hbody; try reflexivity.
    apply IH; [|lia|exact Hlen].
    unfold lift in Hbody.
    destruct (EmailHandler.body fuel W (EmailHandler.mk [] maxRetries) alert x (state mem))
      as [r st']. injection Hbody as _ <-. exact Harr.
Qed.

(** A call in memory does what the handler of the value-level model does
    with the configuration found in memory. *)
Lemma call_Alert_runs_the_handler fuel W self datacenter alert mem r xs :
  handlers mem self = Some r ->
  (forall q, array_of r = Some q ->
     arrays mem q = Some xs
     /\ match r with
        | OfEmail recipients _ => (len recipients <= List.length xs)%nat
        | _ => True
        end) ->
  call_Alert fuel W self datacenter alert mem
  = lift (Alert fuel W (handler_of r xs) datacenter alert) mem.
Proof.
  intros Hr Harr. unfold call_Alert, mbind at 1, load_handler. rewrite Hr.
  destruct r as [h|recipients maxRetries|h|h]; try reflexivity.
  destruct (Harr (array recipients) eq_refl) as [Hxs Hlen].
  simpl Receiver_Alert. unfold range_slice.
  rewrite (range_from_runs_the_loop fuel W maxRetries alert recipients xs
             (len recipients) 0 mem Hxs ltac:(lia) Hlen).
  simpl skipn. simpl handler_of. simpl Alert. unfold EmailHandler.Alert, lift.
  simpl EmailHandler.Recipients.
  assert (Hsame : forall rs st,
             for_range rs (EmailHandler.body fuel W (EmailHandler.mk [] maxRetries) alert) st
             = for_range rs
                 (EmailHandler.body fuel W
                    (EmailHandler.mk (firstn (len recipients) xs) maxRetries) alert) st).
  { induction rs as [|x rs IH]; intros st; simpl; [reflexivity|].
    unfold bind.
    rewrite (Email_body_reads_MaxRetries (EmailHandler.mk [] maxRetries)
               (EmailHandler.mk (firstn (len recipients) xs) maxRetries)
               W fuel alert x st eq_refl).
    destruct (EmailHandler.body _ _ _ _ _ _) as [[[]| | |] st1]; try reflexivity.
    apply IH. }
  now rewrite Hsame.
Qed.

(** C9. A call of [Alert] on the handler value the caller holds, whatever
    that handler is, whatever the world answers and however the call
    ends, writes neither the alert nor the configuration: after the call
    the alerts in memory are what they were, so the six fields of the
    alert are; the handler values in memory are what they were, so every
    configuration field is; the backing arrays are what they were, so the
    recipients behind the slice are; and the trace has only grown.  The
    language of the model has the three writes, and a handler that used
    one would not pass. *)
Theorem alert_and_configuration_are_read_only :
  forall fuel W self datacenter alert mem,
    let mem' := snd (call_Alert fuel W self datacenter alert mem) in
    heap (state mem') = heap (state mem)
    /\ handlers mem' = handlers mem
    /\ arrays mem' = arrays mem
    /\ (forall a, heap (state mem) alert = Some a ->
          exists a', heap (state mem') alert = Some a'
            /\ Service a' = Service a /\ Tag a' = Tag a /\ Node a' = Node a
            /\ Status a' = Status a /\ Message a' = Message a /\ Details a' = Details a)
    /\ (forall r, handlers mem self = Some r ->
          handlers mem' self = Some r
          /\ forall q, array_of r = Some q -> arrays mem' q = arrays mem q)
    /\ exists evs, trace (state mem') = trace (state mem) ++ evs.
Proof.
  intros fuel W self dc alert mem mem'.
  destruct (mframe_call_Alert fuel W self dc alert mem) as [evs Hevs].
  subst mem'. rewrite Hevs. simpl. repeat split; auto.
  - intros a Ha. exists a. repeat split; auto.
  - now exists evs.
Qed.

Lemma alert_and_configuration_are_read_only_witness :
  handlers (snd (call_Alert 3 Sample.refusing 7 "us-east" 1 sample_memory)) 7
  = Some (OfEmail (mkSlice 9 2) 1)
  /\ arrays (snd (call_Alert 3 Sample.refusing 7 "us-east" 1 sample_memory)) 9
     = Some ["a@example.com"; "b@example.org"]
  /\ exists a', heap (state (snd (call_Alert 3 Sample.refusing 7 "us-east" 1 sample_memory))) 1
                = Some a'
                /\ Service a' = "web" /\ Tag a' = "v2" /\ Node a' = "node-1"
                /\ Status a' = "critical" /\ Message a' = "web unhealthy"
                /\ Details a' = Details Sample.web.
Proof.
  destruct (alert_and_configuration_are_read_only 3 Sample.refusing 7 "us-east" 1
              sample_memory) as (_ & _ & _ & Halert & Hhandler & _).
  destruct (Hhandler (OfEmail (mkSlice 9 2) 1) eq_refl) as [Hsame Harray].
  split; [exact Hsame|]. split.
  - exact (Harray 9 eq_refl).
  - exact (Halert Sample.web eq_refl).
Defined.
